(** * server1: the persistence layer of a farmers' marketplace

    A shallow embedding of [models.py] (the SQLAlchemy entities, their
    [@validates] callbacks, the password property and [Order.serialize]) and
    of the Alembic revision [4d16c11a51fd] (upgrade / downgrade), followed by
    the properties the specification states about them.

    Conventions of the embedding
    - a Python value is a [value]; an operation that can raise returns a
      [result], whose [Raise] carries the exception;
    - a Python [str] is a Rocq [string] holding its UTF-8 text, so that
      [str.encode("utf-8")] yields those same bytes and [bytes.decode("utf-8")]
      is a validity check; [bytes] are [list byte];
    - a mapped instance is its attribute dictionary, a [gmap string value];
      a column attribute that was never set reads as [None];
    - a mapped class is a [model]: its columns, its relationships and the
      callbacks registered with [@validates]. *)

From Stdlib Require Import ZArith Lia List.
From Stdlib.Strings Require Import Ascii String Byte.
From stdpp Require Import base option list gmap strings fin_maps pretty.

Local Open Scope string_scope.
Local Open Scope Z_scope.

(** ** Python values, exceptions and results *)

(** [datetime.datetime], field by field. *)
Record datetime := mk_datetime {
  year : Z; month : Z; day : Z;
  hour : Z; minute : Z; second : Z; microsecond : Z
}.

(** The values this development follows: [None], the integers, the strings
    and the timestamps, which are what the columns of [models.py] hold.
    Other Python values (floats, booleans, bytes, lists, dates) are outside
    of it; a statement about "every value" is about these four kinds. *)
Inductive value :=
  | VNone
  | VInt (n : Z)
  | VStr (s : string)
  | VDateTime (d : datetime).

Inductive exn :=
  | Exception (msg : string)
  | ValueError (msg : string)
  | ValidationError (msg : string)
  | TypeError
  | AttributeError
  | KeyError (key : string)
  | UnicodeDecodeError
  | OperationalError (msg : string).

Inductive result (A : Type) :=
  | Ok (a : A)
  | Raise (e : exn).
Arguments Ok {A} a.
Arguments Raise {A} e.

(** Sequencing: an exception raised by the first computation propagates. *)
#[global] Instance result_bind : MBind result := fun A B k r =>
  match r with
  | Ok a => k a
  | Raise e => Raise e
  end.
#[global] Instance result_ret : MRet result := fun A a => Ok a.

Definition returns {A} (r : result A) : Prop := exists a, r = Ok a.
Definition raises {A} (r : result A) : Prop := exists e, r = Raise e.

#[global] Instance byte_eq_dec : EqDecision byte := Byte.byte_eq_dec.
#[global] Instance datetime_eq_dec : EqDecision datetime.
Proof. solve_decision. Defined.
#[global] Instance value_eq_dec : EqDecision value.
Proof. solve_decision. Defined.
#[global] Instance exn_eq_dec : EqDecision exn.
Proof. solve_decision. Defined.

Module Py.

(** [bool(v)]: [None], [0] and [""] are falsy, a datetime is always truthy. *)
Definition truthy (v : value) : bool :=
  match v with
  | VNone => false
  | VInt n => negb (n =? 0)
  | VStr s => negb (String.eqb s "")
  | VDateTime _ => true
  end.

(** [a == b]; values of different types are unequal. *)
Definition eq (a b : value) : bool := bool_decide (a = b).

Definition datetime_key (d : datetime) : list Z :=
  [year d; month d; day d; hour d; minute d; second d; microsecond d].

Fixpoint list_compare (a b : list Z) : comparison :=
  match a, b with
  | [], [] => Eq
  | [], _ :: _ => Lt
  | _ :: _, [] => Gt
  | x :: a', y :: b' =>
      match x ?= y with
      | Eq => list_compare a' b'
      | c => c
      end
  end.

(** The ordering of two values: defined inside one type, a [TypeError]
    across types and on [None]. *)
Definition compare (a b : value) : result comparison :=
  match a, b with
  | VInt x, VInt y => Ok (x ?= y)
  | VStr x, VStr y => Ok (String.compare x y)
  | VDateTime x, VDateTime y => Ok (list_compare (datetime_key x) (datetime_key y))
  | _, _ => Raise TypeError
  end.

Definition lt (a b : value) : result bool :=
  c ← compare a b; Ok (match c with Lt => true | _ => false end).
Definition gt (a b : value) : result bool :=
  c ← compare a b; Ok (match c with Gt => true | _ => false end).
Definition le (a b : value) : result bool :=
  c ← compare a b; Ok (match c with Gt => false | _ => true end).

(** [needle in s] on two strings: substring search. *)
Fixpoint substring_of (needle s : string) : bool :=
  String.prefix needle s ||
  match s with
  | EmptyString => false
  | String _ rest => substring_of needle rest
  end.

(** [needle in v]: only a string can be searched for a string here. *)
Definition str_in (needle : string) (v : value) : result bool :=
  match v with
  | VStr s => Ok (substring_of needle s)
  | _ => Raise TypeError
  end.

(** [v in l] for a list [l]: element-wise [==]. *)
Definition in_list (v : value) (l : list value) : bool :=
  existsb (eq v) l.

(** [s.encode("utf-8")]. *)
Definition encode (s : string) : list byte := list_byte_of_string s.

(** [v.encode("utf-8")] as a method call: only [str] has it among the
    values modelled. *)
Definition encode_method (v : value) : result (list byte) :=
  match v with
  | VStr s => Ok (encode s)
  | _ => Raise AttributeError
  end.

Definition in_range (lo hi : N) (b : byte) : bool :=
  ((lo <=? Byte.to_N b) && (Byte.to_N b <=? hi))%N.

Definition cont : byte -> bool := in_range 128 191.

(** Well-formed UTF-8 (Unicode, table 3-7). *)
Fixpoint utf8_valid (bs : list byte) : bool :=
  match bs with
  | [] => true
  | b :: rest =>
      if in_range 0 127 b then utf8_valid rest
      else match rest with
      | b1 :: rest1 =>
          if in_range 194 223 b && cont b1 then utf8_valid rest1
          else match rest1 with
          | b2 :: rest2 =>
              if (in_range 224 224 b && in_range 160 191 b1 && cont b2)
                 || (in_range 225 236 b && cont b1 && cont b2)
                 || (in_range 237 237 b && in_range 128 159 b1 && cont b2)
                 || (in_range 238 239 b && cont b1 && cont b2)
              then utf8_valid rest2
              else match rest2 with
              | b3 :: rest3 =>
                  if (in_range 240 240 b && in_range 144 191 b1 && cont b2 && cont b3)
                     || (in_range 241 243 b && cont b1 && cont b2 && cont b3)
                     || (in_range 244 244 b && in_range 128 143 b1 && cont b2 && cont b3)
                  then utf8_valid rest3
                  else false
              | [] => false
              end
          | [] => false
          end
      | [] => false
      end
  end.

(** [bs.decode("utf-8")]. *)
Definition decode (bs : list byte) : result string :=
  if utf8_valid bs then Ok (string_of_list_byte bs)
  else Raise UnicodeDecodeError.

(** Decimal digits of [n], padded with zeros on the left to [width]. *)
Definition zero_padded (width : nat) (n : Z) : string :=
  let s := pretty n in
  String.concat "" (replicate (width - String.length s) "0") +:+ s.

(** One [strftime] directive: the year is printed as the C library prints
    it, without padding, the other fields on two digits. *)
Definition directive (c : ascii) (d : datetime) : string :=
  if Ascii.eqb c "Y"%char then pretty (year d)
  else if Ascii.eqb c "m"%char then zero_padded 2 (month d)
  else if Ascii.eqb c "d"%char then zero_padded 2 (day d)
  else if Ascii.eqb c "H"%char then zero_padded 2 (hour d)
  else if Ascii.eqb c "M"%char then zero_padded 2 (minute d)
  else if Ascii.eqb c "S"%char then zero_padded 2 (second d)
  else String "%"%char (String c "").

(** [d.strftime(format)] for the numeric date and time directives. *)
Fixpoint strftime (format : string) (d : datetime) : string :=
  match format with
  | EmptyString => ""
  | String c rest =>
      if Ascii.eqb c "%"%char then
        match rest with
        | String c' rest' => directive c' d +:+ strftime rest' d
        | EmptyString => "%"
        end
      else String c (strftime rest d)
  end.

(** [v.strftime(format)] as a method call. *)
Definition strftime_method (v : value) (format : string) : result value :=
  match v with
  | VDateTime d => Ok (VStr (strftime format d))
  | _ => Raise AttributeError
  end.

(** [s.split(sep)] for a one-character separator. *)
Fixpoint split (sep : ascii) (s : string) : list string :=
  match s with
  | EmptyString => [""]
  | String c rest =>
      if Ascii.eqb c sep then "" :: split sep rest
      else match split sep rest with
           | w :: ws => String c w :: ws
           | [] => [String c ""]
           end
  end.

Fixpoint lstrip (s : string) : string :=
  match s with
  | String c rest => if Ascii.eqb c " "%char then lstrip rest else s
  | EmptyString => ""
  end.

(** [s.strip()], for blanks. *)
Definition strip (s : string) : string :=
  String.rev (lstrip (String.rev (lstrip s))).

End Py.

(** A Python [dict] with string keys. *)
Abbreviation dict := (gmap string value).

Module PyDict.
(** [key in d]. *)
Definition has_key (key : string) (d : dict) : bool := bool_decide (is_Some (d !! key)).
(** [d[key]]. *)
Definition getitem (d : dict) (key : string) : result value :=
  match d !! key with
  | Some v => Ok v
  | None => Raise (KeyError key)
  end.
(** A dict display [{k1: v1, ...}]: later entries win. *)
Definition display (entries : list (string * value)) : dict :=
  foldl (fun d kv => <[kv.1 := kv.2]> d) ∅ entries.
End PyDict.

(** ** The object-relational layer *)

Inductive sa_type := Integer | String_ | DateTime | Date.

Inductive column_option :=
  | primary_key
  | unique
  | not_nullable
  | ForeignKey (target : string) (name : option string)
  | default_utcnow.

Record column := Column {
  col_name : string;
  col_type : sa_type;
  col_options : list column_option
}.

Inductive relationship_option :=
  | backref (name : string)
  | uselist (b : bool)
  | lazy (how : string)
  | foreign_keys (spec : string)
  | cascade (spec : string)
  | secondary (table : string).

Record relationship := Relationship {
  rel_target : string;
  rel_options : list relationship_option
}.

(** A mapped instance: its attribute dictionary. *)
Abbreviation instance := (gmap string value).

(** A callback registered with [@validates]: it receives the instance, the
    attribute name and the incoming value; what it returns is what is stored. *)
Definition validator := instance -> string -> value -> result value.

Record mapped_class := {
  class_name : string;
  tablename : string;
  columns : list column;
  relationships : list (string * relationship);
  validators : list (string * validator)
}.

#[global] Instance column_option_eq_dec : EqDecision column_option.
Proof. solve_decision. Defined.
#[global] Instance relationship_option_eq_dec : EqDecision relationship_option.
Proof. solve_decision. Defined.

Module Orm.

(** Reading a column attribute; one that was never set is [None]. *)
Definition getattr (self : instance) (key : string) : value :=
  default VNone (self !! key).

Fixpoint find_validator (key : string) (vs : list (string * validator)) : option validator :=
  match vs with
  | [] => None
  | (k, f) :: vs' => if String.eqb k key then Some f else find_validator key vs'
  end.

(** Attribute assignment [self.key = v] on an instance of [cls], for [key]
    a column attribute of the class: the validator registered for [key], if
    any, runs first and its result is stored; without one the value is
    stored as it is.  The hybrid property [User.password_hash] is assigned
    through [User.password_hash_setter], not through this function, and the
    assignment of a relationship attribute is not modelled. *)
Definition setattr (cls : mapped_class) (self : instance) (key : string) (v : value)
  : result instance :=
  match find_validator key (validators cls) with
  | Some validate => v' ← validate self key v; Ok (<[key := v']> self)
  | None => Ok (<[key := v]> self)
  end.

End Orm.

Definition dquote : string := String "034"%char "".

(** The two association tables of [models.py]. *)
Definition association_table_order_product : string * list column :=
  ("association_order_product",
   [ Column "order_id" Integer [ForeignKey "order.id" None];
     Column "product_id" Integer [ForeignKey "product.id" None] ]).

Definition association_table_product_review : string * list column :=
  ("association_product_review",
   [ Column "product_id" Integer [ForeignKey "product.id" None];
     Column "review_id" Integer [ForeignKey "reviews.id" None] ]).

(** ** The hashing utility *)

(** Modelled from the spec: the object [bcrypt] that [models.py] imports from
    [config], whose definition lies outside [models.py].  The specification
    describes it as computing "a salted one-way hash" and [authenticate] as
    returning "whether it matches the stored hash".  The salt that
    [generate_password_hash] draws is an explicit argument here; both
    operations may raise. *)
Record Bcrypt := {
  salt : Type;
  generate_password_hash : list byte -> salt -> result (list byte);
  check_password_hash : value -> list byte -> result bool
}.

(** Modelled from the spec: the contract of the hashing utility, "setting a
    password then authenticating with the same plaintext returns true;
    authenticating with any different plaintext returns false": a candidate
    matches a hash exactly when it is the password the hash was made from. *)
Definition bcrypt_contract (bcrypt : Bcrypt) : Prop :=
  forall (password : list byte) (s : salt bcrypt) (h : list byte),
    generate_password_hash bcrypt password s = Ok h ->
    forall candidate : list byte,
      check_password_hash bcrypt (VStr (string_of_list_byte h)) candidate
      = Ok (bool_decide (candidate = password)).


Module User.

(** The getter of the hybrid property [password_hash]. *)
Definition password_hash (self : instance) : result value :=
  Raise (Exception "Password hashes may not be viewed.").

(** The setter of the hybrid property [password_hash]; [s] is the salt the
    library draws. *)
Definition password_hash_setter (bcrypt : Bcrypt) (s : salt bcrypt)
    (self : instance) (password : value) : result instance :=
  plain ← Py.encode_method password;
  password_hash ← generate_password_hash bcrypt plain s;
  text ← Py.decode password_hash;
  Ok (<["_password_hash" := VStr text]> self).

Definition authenticate (bcrypt : Bcrypt) (self : instance) (password : value) : result bool :=
  let stored := Orm.getattr self "_password_hash" in
  plain ← Py.encode_method password;
  check_password_hash bcrypt stored plain.

Definition validate_email (self : instance) (key : string) (email : value) : result value :=
  bad ← (if negb (Py.truthy email) then Ok true
         else found ← Py.str_in "@" email; Ok (negb found));
  if bad : bool then Raise (ValueError "Invalid email address format")
  else Ok email.

Definition validate_schema (self : instance) (data : dict) : result value :=
  bad ← (if PyDict.has_key "role" data then
           role ← PyDict.getitem data "role";
           Ok (negb (Py.in_list role [VStr "Farmer"; VStr "customer"]))
         else Ok false);
  if bad : bool then
    Raise (ValidationError ("Invalid role. Must be either " +:+ dquote +:+ "Farmer"
                            +:+ dquote +:+ " or " +:+ dquote +:+ "customer" +:+ dquote))
  else Ok VNone.

Definition cls : mapped_class := {|
  class_name := "User";
  tablename := "user";
  columns :=
    [ Column "id" Integer [primary_key];
      Column "username" String_ [unique];
      Column "email" String_ [unique];
      Column "_password_hash" String_ [];
      Column "role" String_ [];
      Column "registration_date" DateTime [default_utcnow];
      Column "image" String_ [] ];
  relationships :=
    [ ("farmer", Relationship "Farmer" [backref "user"; uselist false]);
      ("orders", Relationship "Order" [backref "user"]);
      ("reviews", Relationship "Reviews" [backref "user"; lazy "dynamic"]);
      ("sent_messages",
       Relationship "ChatMessage"
         [foreign_keys "ChatMessage.sender_id"; backref "sender";
          lazy "dynamic"; cascade "all, delete"]);
      ("received_messages",
       Relationship "ChatMessage"
         [foreign_keys "ChatMessage.receiver_id"; backref "receiver";
          lazy "dynamic"; cascade "all, delete"]) ];
  validators := [ ("email", validate_email) ]
|}.

End User.

Module Farmer.
Definition cls : mapped_class := {|
  class_name := "Farmer";
  tablename := "farmer";
  columns :=
    [ Column "id" Integer [primary_key];
      Column "farm_name" String_ [unique];
      Column "location" String_ [];
      Column "contact" String_ [];
      Column "user_id" Integer [ForeignKey "user.id" None; unique] ];
  relationships := [ ("products", Relationship "Product" [backref "farmer"]) ];
  validators := []
|}.
End Farmer.

Module Reviews.

Definition validate_rating (self : instance) (key : string) (rating : value) : result value :=
  low ← Py.lt rating (VInt 1);
  bad ← (if low : bool then Ok true else Py.gt rating (VInt 5));
  if bad : bool then Raise (ValueError "Rating must be between 1 and 5")
  else Ok rating.

Definition cls : mapped_class := {|
  class_name := "Reviews";
  tablename := "reviews";
  columns :=
    [ Column "id" Integer [primary_key];
      Column "customer_id" Integer [ForeignKey "user.id" None];
      Column "product_id" Integer [ForeignKey "product.id" None];
      Column "rating" Integer [];
      Column "comments" String_ [];
      Column "review_date" Date [default_utcnow] ];
  relationships := [];
  validators := [ ("rating", validate_rating) ]
|}.

End Reviews.

Module Product.
Definition cls : mapped_class := {|
  class_name := "Product";
  tablename := "product";
  columns :=
    [ Column "id" Integer [primary_key];
      Column "name" String_ [];
      Column "price" Integer [];
      Column "description" String_ [];
      Column "quantity_available" Integer [];
      Column "category" String_ [];
      Column "image" String_ [];
      Column "farmer_id" Integer [ForeignKey "farmer.id" None] ];
  relationships :=
    [ ("reviews",
       Relationship "Reviews"
         [secondary (association_table_product_review.1); backref "products"]) ];
  validators := []
|}.
End Product.

Module Order.

Definition validate_quantity_ordered (self : instance) (key : string) (quantity_ordered : value)
  : result value :=
  bad ← Py.le quantity_ordered (VInt 0);
  if bad : bool then Raise (ValueError "Quantity ordered must be greater than 0")
  else Ok quantity_ordered.

Definition serialize (self : instance) : result dict :=
  order_date ← (if Py.truthy (Orm.getattr self "order_date")
                then Py.strftime_method (Orm.getattr self "order_date") "%Y-%m-%d %H:%M:%S"
                else Ok VNone);
  Ok (PyDict.display
        [ ("id", Orm.getattr self "id");
          ("order_date", order_date);
          ("quantity_ordered", Orm.getattr self "quantity_ordered");
          ("total_price", Orm.getattr self "total_price");
          ("order_status", Orm.getattr self "order_status") ]).

Definition cls : mapped_class := {|
  class_name := "Order";
  tablename := "order";
  columns :=
    [ Column "id" Integer [primary_key];
      Column "customer_id" Integer [ForeignKey "user.id" None];
      Column "product_id" Integer [ForeignKey "product.id" None];
      Column "order_date" DateTime [default_utcnow];
      Column "quantity_ordered" Integer [];
      Column "total_price" Integer [];
      Column "order_status" String_ [] ];
  relationships :=
    [ ("payments", Relationship "Payment" [backref "order"]);
      ("products",
       Relationship "Product"
         [secondary (association_table_order_product.1); backref "orders"]) ];
  validators := [ ("quantity_ordered", validate_quantity_ordered) ]
|}.

End Order.

Module Payment.

Definition validate_payment_amount (self : instance) (key : string) (payment_amount : value)
  : result value :=
  bad ← Py.lt payment_amount (VInt 0);
  if bad : bool then Raise (ValueError "Payment amount cannot be negative")
  else Ok payment_amount.

Definition cls : mapped_class := {|
  class_name := "Payment";
  tablename := "payment";
  columns :=
    [ Column "id" Integer [primary_key];
      Column "order_id" Integer [ForeignKey "order.id" None];
      Column "payment_amount" Integer [];
      Column "payment_date" Date [];
      Column "payment_method" String_ [];
      Column "status" String_ [];
      Column "transaction_id" Integer [] ];
  relationships := [];
  validators := [ ("payment_amount", validate_payment_amount) ]
|}.

End Payment.

Module ChatMessage.

Definition validate_message_text (self : instance) (key : string) (message_text : value)
  : result value :=
  if negb (Py.truthy message_text) then Raise (ValueError "Message text cannot be empty")
  else Ok message_text.

Definition cls : mapped_class := {|
  class_name := "ChatMessage";
  tablename := "chat_message";
  columns :=
    [ Column "id" Integer [primary_key];
      Column "sender_id" Integer [ForeignKey "user.id" (Some "fk_sender_id"); not_nullable];
      Column "receiver_id" Integer [ForeignKey "user.id" (Some "fk_receiver_id"); not_nullable];
      Column "message_text" String_ [];
      Column "timestamp" DateTime [] ];
  relationships := [];
  validators := [ ("message_text", validate_message_text) ]
|}.

End ChatMessage.

(** Every mapped class of [models.py]. *)
Definition registry : list mapped_class :=
  [User.cls; Farmer.cls; Reviews.cls; Product.cls; Order.cls; Payment.cls; ChatMessage.cls].

(** ** The session: deleting a mapped instance

    The store is a dictionary from table name to rows.  [Session.delete] is
    what the unit of work does when a parent instance is deleted and flushed,
    relationship by relationship as declared on the parent's class: with the
    [delete] cascade (alone or through [all]) the children are deleted in
    turn, each with its own cascades; without it the children stay and their
    foreign key is set to [None]. *)
Abbreviation database := (gmap string (list instance)).

Module Session.

Definition rows (db : database) (table : string) : list instance :=
  default [] (db !! table).

Definition find_class (name : string) : option mapped_class :=
  List.find (fun c => String.eqb (class_name c) name) registry.

(** The cascade options of a relationship, a comma-separated list; the
    default is [save-update, merge]. *)
Definition cascade_of (r : relationship) : list string :=
  let spec :=
    default "save-update, merge"
      (head (omap (fun o => match o with cascade c => Some c | _ => None end)
                  (rel_options r))) in
  Py.strip <$> Py.split ","%char spec.

Definition delete_cascade (r : relationship) : bool :=
  bool_decide ("all" ∈ cascade_of r ∨ "delete" ∈ cascade_of r).

Definition is_secondary (r : relationship) : bool :=
  existsb (fun o => match o with secondary _ => true | _ => false end) (rel_options r).

Definition references (table : string) (c : column) : bool :=
  existsb (fun o => match o with
                    | ForeignKey t _ => String.eqb t (table +:+ ".id")
                    | _ => false
                    end) (col_options c).

(** The child column that carries the relationship: the one named by
    [foreign_keys] ("Class.column"), else the child's foreign key to the
    parent's table. *)
Definition fk_column (parent target : mapped_class) (r : relationship) : option string :=
  match head (omap (fun o => match o with foreign_keys spec => Some spec | _ => None end)
                   (rel_options r)) with
  | Some spec => last (Py.split "."%char spec)
  | None => col_name <$> List.find (references (tablename parent)) (columns target)
  end.

Definition points_to (fk : string) (pk : value) (row : instance) : bool :=
  Py.eq (Orm.getattr row fk) pk.

Definition nullify (fk : string) (pk : value) (row : instance) : instance :=
  if points_to fk pk row then <[fk := VNone]> row else row.

(** What deleting the parent [pk] of class [parent] does along one of its
    relationships; [delete_child] deletes one child with its own cascades.
    A relationship through a [secondary] table is left out of this model. *)
Definition on_parent_delete
    (delete_child : mapped_class -> value -> database -> option database)
    (parent : mapped_class) (pk : value)
    (acc : option database) (attr : string * relationship) : option database :=
  db ← acc;
  let r := attr.2 in
  target ← find_class (rel_target r);
  if is_secondary r then None
  else
    fk ← fk_column parent target r;
    let table := rows db (tablename target) in
    if delete_cascade r then
      foldl (fun acc child => db ← acc; delete_child target (Orm.getattr child "id") db)
            (Some db) (List.filter (points_to fk pk) table)
    else Some (<[tablename target := nullify fk pk <$> table]> db).

(** Delete the instance of [cls] whose primary key is [pk]: first the
    relationships, in the order of their declaration, then the row itself.
    [None] when the fuel does not cover the depth of the cascade. *)
Fixpoint delete (fuel : nat) (cls : mapped_class) (pk : value) (db : database)
  : option database :=
  match fuel with
  | O => None
  | S fuel' =>
      db' ← foldl (on_parent_delete (delete fuel') cls pk) (Some db) (relationships cls);
      Some (<[tablename cls :=
                List.filter (fun row => negb (points_to "id" pk row))
                            (rows db' (tablename cls))]> db')
  end.

End Session.

(** ** The schema migration (revision 4d16c11a51fd) *)

Module Migration.

Inductive schema_item :=
  | Column (name : string) (type_ : sa_type) (nullable : bool)
  | PrimaryKeyConstraint (cols : list string)
  | UniqueConstraint (cols : list string)
  | ForeignKeyConstraint (cols refcols : list string) (name : option string).

Inductive operation :=
  | create_table (name : string) (items : list schema_item)
  | drop_table (name : string).

Definition upgrade : list operation :=
  [ create_table "user"
      [ Column "id" Integer false;
        Column "username" String_ true;
        Column "email" String_ true;
        Column "_password_hash" String_ true;
        Column "role" String_ true;
        Column "registration_date" DateTime true;
        Column "image" String_ true;
        PrimaryKeyConstraint ["id"];
        UniqueConstraint ["email"];
        UniqueConstraint ["username"] ];
    create_table "chat_message"
      [ Column "id" Integer false;
        Column "sender_id" Integer false;
        Column "receiver_id" Integer false;
        Column "message_text" String_ true;
        Column "timestamp" DateTime true;
        ForeignKeyConstraint ["receiver_id"] ["user.id"] (Some "fk_receiver_id");
        ForeignKeyConstraint ["sender_id"] ["user.id"] (Some "fk_sender_id");
        PrimaryKeyConstraint ["id"] ];
    create_table "farmer"
      [ Column "id" Integer false;
        Column "farm_name" String_ true;
        Column "location" String_ true;
        Column "contact" String_ true;
        Column "user_id" Integer true;
        ForeignKeyConstraint ["user_id"] ["user.id"] None;
        PrimaryKeyConstraint ["id"];
        UniqueConstraint ["farm_name"];
        UniqueConstraint ["user_id"] ];
    create_table "product"
      [ Column "id" Integer false;
        Column "name" String_ true;
        Column "price" Integer true;
        Column "description" String_ true;
        Column "quantity_available" Integer true;
        Column "category" String_ true;
        Column "image" String_ true;
        Column "farmer_id" Integer true;
        ForeignKeyConstraint ["farmer_id"] ["farmer.id"] None;
        PrimaryKeyConstraint ["id"] ];
    create_table "order"
      [ Column "id" Integer false;
        Column "customer_id" Integer true;
        Column "product_id" Integer true;
        Column "order_date" DateTime true;
        Column "quantity_ordered" Integer true;
        Column "total_price" Integer true;
        Column "order_status" String_ true;
        ForeignKeyConstraint ["customer_id"] ["user.id"] None;
        ForeignKeyConstraint ["product_id"] ["product.id"] None;
        PrimaryKeyConstraint ["id"] ];
    create_table "reviews"
      [ Column "id" Integer false;
        Column "customer_id" Integer true;
        Column "product_id" Integer true;
        Column "rating" Integer true;
        Column "comments" String_ true;
        Column "review_date" Date true;
        ForeignKeyConstraint ["customer_id"] ["user.id"] None;
        ForeignKeyConstraint ["product_id"] ["product.id"] None;
        PrimaryKeyConstraint ["id"] ];
    create_table "association_order_product"
      [ Column "order_id" Integer true;
        Column "product_id" Integer true;
        ForeignKeyConstraint ["order_id"] ["order.id"] None;
        ForeignKeyConstraint ["product_id"] ["product.id"] None ];
    create_table "association_product_review"
      [ Column "product_id" Integer true;
        Column "review_id" Integer true;
        ForeignKeyConstraint ["product_id"] ["product.id"] None;
        ForeignKeyConstraint ["review_id"] ["reviews.id"] None ];
    create_table "payment"
      [ Column "id" Integer false;
        Column "order_id" Integer true;
        Column "payment_amount" Integer true;
        Column "payment_date" Date true;
        Column "payment_method" String_ true;
        Column "status" String_ true;
        Column "transaction_id" Integer true;
        ForeignKeyConstraint ["order_id"] ["order.id"] None;
        PrimaryKeyConstraint ["id"] ] ].

Definition downgrade : list operation :=
  [ drop_table "payment";
    drop_table "association_product_review";
    drop_table "association_order_product";
    drop_table "reviews";
    drop_table "order";
    drop_table "product";
    drop_table "farmer";
    drop_table "chat_message";
    drop_table "user" ].

(** The tables a list of operations creates, and those it drops, in the
    order of the operations. *)
Definition created (ops : list operation) : list string :=
  omap (fun op => match op with create_table name _ => Some name | _ => None end) ops.

Definition dropped (ops : list operation) : list string :=
  omap (fun op => match op with drop_table name => Some name | _ => None end) ops.

(** The tables a table's foreign keys refer to. *)
Definition referenced (items : list schema_item) : list string :=
  mjoin ((fun it => match it with
                    | ForeignKeyConstraint _ refcols _ =>
                        omap (fun rc => head (Py.split "."%char rc)) refcols
                    | _ => []
                    end) <$> items).

(** A schema: the tables that exist, oldest first, on a database that
    enforces foreign keys: creating a table needs the tables it refers to,
    dropping one needs that no table still refers to it.  A database that
    does not enforce them accepts every run that this one accepts.  The
    messages for a table that exists already and for one that is missing are
    worded as SQLite words them. *)
Definition has_table (name : string) (s : list (string * list schema_item)) : bool :=
  existsb (fun t => String.eqb t.1 name) s.

Definition run_operation (op : operation) (s : list (string * list schema_item))
  : result (list (string * list schema_item)) :=
  match op with
  | create_table name items =>
      if has_table name s
      then Raise (OperationalError ("table " +:+ name +:+ " already exists"))
      else if forallb (fun t => has_table t s) (referenced items)
      then Ok (s ++ [(name, items)])%list
      else Raise (OperationalError "referenced table does not exist")
  | drop_table name =>
      if negb (has_table name s)
      then Raise (OperationalError ("no such table: " +:+ name))
      else if existsb (fun t => bool_decide (name ∈ referenced t.2)) s
      then Raise (OperationalError "table is still referenced")
      else Ok (List.filter (fun t => negb (String.eqb t.1 name)) s)
  end.

Definition run (ops : list operation) (s : list (string * list schema_item))
  : result (list (string * list schema_item)) :=
  foldl (fun acc op => s' ← acc; run_operation op s') (Ok s) ops.

End Migration.

(** ** The declared schema and the created schema, side by side *)

#[global] Instance sa_type_eq_dec : EqDecision sa_type.
Proof. solve_decision. Defined.

Module Schema.

(** What the columns of a mapped table amount to once created: a primary
    key column is not nullable, every other column is unless it says so. *)
Definition is_primary_key (c : column) : bool :=
  bool_decide (primary_key ∈ col_options c).

Definition nullable (c : column) : bool :=
  negb (is_primary_key c) && negb (bool_decide (not_nullable ∈ col_options c)).

Definition columns_of (cols : list column) : list (string * sa_type * bool) :=
  (fun c => (col_name c, col_type c, nullable c)) <$> cols.

Definition primary_key_of (cols : list column) : list string :=
  col_name <$> List.filter is_primary_key cols.

Definition unique_of (cols : list column) : list string :=
  col_name <$> List.filter (fun c => bool_decide (unique ∈ col_options c)) cols.

Definition foreign_keys_of (cols : list column) : list (string * string * option string) :=
  mjoin ((fun c => omap (fun o => match o with
                                  | ForeignKey target name => Some (col_name c, target, name)
                                  | _ => None
                                  end) (col_options c)) <$> cols).

(** The same four views of the items of a [create_table]. *)
Definition created_columns (items : list Migration.schema_item)
  : list (string * sa_type * bool) :=
  omap (fun it => match it with
                  | Migration.Column name type_ nullable => Some (name, type_, nullable)
                  | _ => None
                  end) items.

Definition created_primary_key (items : list Migration.schema_item) : list string :=
  mjoin (omap (fun it => match it with
                         | Migration.PrimaryKeyConstraint cols => Some cols
                         | _ => None
                         end) items).

Definition created_unique (items : list Migration.schema_item) : list string :=
  mjoin (omap (fun it => match it with
                         | Migration.UniqueConstraint cols => Some cols
                         | _ => None
                         end) items).

Definition created_foreign_keys (items : list Migration.schema_item)
  : list (string * string * option string) :=
  omap (fun it => match it with
                  | Migration.ForeignKeyConstraint [col] [refcol] name =>
                      Some (col, refcol, name)
                  | _ => None
                  end) items.

(** The tables a list of operations creates, with their items. *)
Definition tables (ops : list Migration.operation)
  : list (string * list Migration.schema_item) :=
  omap (fun op => match op with
                  | Migration.create_table name items => Some (name, items)
                  | _ => None
                  end) ops.

(** A declared table and a created table agree: same columns in the same
    order with the same types and nullability, same primary key, same unique
    columns and same foreign keys (constraints in any order). *)
Definition agree (cols : list column) (items : list Migration.schema_item) : Prop :=
  created_columns items = columns_of cols
  /\ created_primary_key items = primary_key_of cols
  /\ created_unique items ≡ₚ unique_of cols
  /\ created_foreign_keys items ≡ₚ foreign_keys_of cols.

(** Every table that [models.py] declares: the mapped classes and the two
    association tables. *)
Definition declared : list (string * list column) :=
  ((fun cls => (tablename cls, columns cls)) <$> registry)
  ++ [association_table_order_product; association_table_product_review].

(** Tables that can be created one after the other on top of the tables
    named [avail]: each name is new and each reference is to a table
    already there. *)
Fixpoint creatable (avail : list string)
    (ts : list (string * list Migration.schema_item)) : bool :=
  match ts with
  | [] => true
  | t :: ts' =>
      negb (bool_decide (t.1 ∈ avail))
      && forallb (fun r => bool_decide (r ∈ avail)) (Migration.referenced t.2)
      && creatable (avail ++ [t.1]) ts'
  end.

(** Tables, latest first, that can be dropped one after the other: none is
    referenced by itself or by a table created before it. *)
Fixpoint droppable (ts : list (string * list Migration.schema_item)) : bool :=
  match ts with
  | [] => true
  | t :: earlier =>
      negb (existsb (fun u => bool_decide (t.1 ∈ Migration.referenced u.2)) (t :: earlier))
      && droppable earlier
  end.

End Schema.

(** ** Sample data *)

(** A hashing utility that meets [bcrypt_contract], to show that the
    contract can be met: the "hash" is the salt byte followed by the
    password, and a candidate matches when it is what follows the salt. *)
Definition plain_bcrypt : Bcrypt := {|
  salt := byte;
  generate_password_hash := fun password s => Ok (s :: password);
  check_password_hash := fun pw_hash candidate =>
    match pw_hash with
    | VStr h =>
        match list_byte_of_string h with
        | _ :: password => Ok (bool_decide (candidate = password))
        | [] => Raise (ValueError "Invalid salt")
        end
    | _ => Raise TypeError
    end
|}.


Definition sample_order : instance :=
  {[ "id" := VInt 7;
     "customer_id" := VInt 1;
     "product_id" := VInt 3;
     "order_date" := VDateTime (mk_datetime 2024 3 11 11 38 3 229813);
     "quantity_ordered" := VInt 2;
     "total_price" := VInt 20;
     "order_status" := VStr "pending" ]}.

Definition sample_message (id sender receiver : Z) : instance :=
  {[ "id" := VInt id; "sender_id" := VInt sender; "receiver_id" := VInt receiver;
     "message_text" := VStr "hello" ]}.

Definition sample_database : database :=
  {[ "user" := [ {[ "id" := VInt 1 ]}; {[ "id" := VInt 2 ]} ];
     "chat_message" := [ sample_message 1 1 2; sample_message 2 2 1; sample_message 3 2 2 ];
     "farmer" := [ {[ "id" := VInt 1; "user_id" := VInt 1 ]} ];
     "order" := [ sample_order ] ]}.

(** A schema before the revision is applied: Alembic's own version table. *)
Definition sample_schema : list (string * list Migration.schema_item) :=
  [ ("alembic_version",
     [ Migration.Column "version_num" String_ false;
       Migration.PrimaryKeyConstraint ["version_num"] ]) ].

(** * Properties *)

(** ** The primitives on sample inputs *)

Example strftime_sample :
  Py.strftime "%Y-%m-%d %H:%M:%S" (mk_datetime 2024 3 11 11 38 3 229813)
  = "2024-03-11 11:38:03"
  /\ Py.strftime "%Y-%m-%d %H:%M:%S" (mk_datetime 5 1 2 3 4 5 0) = "5-01-02 03:04:05".
Proof. split; vm_compute; reflexivity. Qed.

Example decode_sample :
  Py.decode (Py.encode "a@x.com") = Ok "a@x.com"
  /\ Py.decode [xc3; xa9] = Ok (String "195"%char (String "169"%char ""))
  /\ Py.decode [xff] = Raise UnicodeDecodeError
  /\ Py.decode [xc3] = Raise UnicodeDecodeError.
Proof. repeat split; reflexivity. Qed.

Example cascade_sample :
  Session.cascade_of (Relationship "ChatMessage" [cascade "all, delete"]) = ["all"; "delete"]
  /\ Session.cascade_of (Relationship "Order" [backref "user"]) = ["save-update"; "merge"]
  /\ Session.delete_cascade <$> (relationships User.cls).*2
     = [false; false; false; true; true].
Proof. repeat split; reflexivity. Qed.

Example validate_email_sample :
  User.validate_email ∅ "email" (VStr "a@x.com") = Ok (VStr "a@x.com")
  /\ User.validate_email ∅ "email" (VStr "ax.com")
     = Raise (ValueError "Invalid email address format")
  /\ User.validate_email ∅ "email" (VStr "")
     = Raise (ValueError "Invalid email address format").
Proof. repeat split; reflexivity. Qed.

(** ** Results and comparisons *)

Lemma returns_Ok {A} (a : A) : returns (Ok a).
Proof. by exists a. Qed.

Lemma not_returns_Raise {A} (e : exn) : ~ returns (@Raise A e).
Proof. by intros [a Ha]. Qed.

Lemma raises_Raise {A} (e : exn) : raises (@Raise A e).
Proof. by exists e. Qed.

Lemma not_raises_Ok {A} (a : A) : ~ raises (Ok a).
Proof. by intros [e He]. Qed.

(** Assignment to a validated attribute runs the validator and stores what
    it returns. *)
Lemma setattr_validated (cls : mapped_class) (f : validator)
    (self : instance) (key : string) (v : value) :
  Orm.find_validator key (validators cls) = Some f ->
  Orm.setattr cls self key v = (v' ← f self key v; Ok (<[key := v']> self)).
Proof. intros Hf. unfold Orm.setattr. by rewrite Hf. Qed.

(** Assignment to an attribute without validator always succeeds. *)
Lemma setattr_plain (cls : mapped_class) (self : instance) (key : string) (v : value) :
  Orm.find_validator key (validators cls) = None ->
  Orm.setattr cls self key v = Ok (<[key := v]> self).
Proof. intros Hf. unfold Orm.setattr. by rewrite Hf. Qed.

(** ** Numeric validators *)

(** Case analysis on every integer comparison of the goal. *)
Ltac compare_cases :=
  cbn;
  repeat match goal with
         | |- context [(?a ?= ?b)%Z] => destruct (Z.compare_spec a b); cbn
         end;
  repeat case_bool_decide; first [reflexivity | lia].

Lemma validate_rating_int (self : instance) (key : string) (r : Z) :
  Reviews.validate_rating self key (VInt r)
  = if bool_decide (1 <= r <= 5) then Ok (VInt r)
    else Raise (ValueError "Rating must be between 1 and 5").
Proof. unfold Reviews.validate_rating, Py.lt, Py.gt. compare_cases. Qed.

Lemma validate_quantity_ordered_int (self : instance) (key : string) (q : Z) :
  Order.validate_quantity_ordered self key (VInt q)
  = if bool_decide (0 < q) then Ok (VInt q)
    else Raise (ValueError "Quantity ordered must be greater than 0").
Proof. unfold Order.validate_quantity_ordered, Py.le. compare_cases. Qed.

Lemma validate_payment_amount_int (self : instance) (key : string) (p : Z) :
  Payment.validate_payment_amount self key (VInt p)
  = if bool_decide (0 <= p) then Ok (VInt p)
    else Raise (ValueError "Payment amount cannot be negative").
Proof. unfold Payment.validate_payment_amount, Py.lt. compare_cases. Qed.

(** C7: assigning an integer [r] to [Reviews.rating] succeeds, and stores
    [r], exactly when [1 <= r <= 5]; outside of the range it raises the
    validator's [ValueError].  At the boundaries, 0 and 6 raise, 1 and 5
    are stored. *)
Theorem rating_assignment (self : instance) (r : Z) :
  Orm.setattr Reviews.cls self "rating" (VInt r)
  = (if bool_decide (1 <= r <= 5) then Ok (<["rating" := VInt r]> self)
     else Raise (ValueError "Rating must be between 1 and 5"))
  /\ (returns (Orm.setattr Reviews.cls self "rating" (VInt r)) <-> 1 <= r <= 5)
  /\ raises (Orm.setattr Reviews.cls self "rating" (VInt 0))
  /\ raises (Orm.setattr Reviews.cls self "rating" (VInt 6))
  /\ returns (Orm.setattr Reviews.cls self "rating" (VInt 1))
  /\ returns (Orm.setattr Reviews.cls self "rating" (VInt 5)).
Proof.
  assert (Hset : forall n,
    Orm.setattr Reviews.cls self "rating" (VInt n)
    = (if bool_decide (1 <= n <= 5) then Ok (<["rating" := VInt n]> self)
       else Raise (ValueError "Rating must be between 1 and 5"))).
  { intros n. rewrite (setattr_validated _ Reviews.validate_rating) by reflexivity.
    rewrite validate_rating_int. by case_bool_decide. }
  split; [apply Hset |].
  split.
  { rewrite Hset. case_bool_decide.
    - split; [done | intros _; apply returns_Ok].
    - split; [intros H'; by apply not_returns_Raise in H' | done]. }
  rewrite !Hset. cbn.
  repeat split; first [apply raises_Raise | apply returns_Ok].
Qed.

(** C9: the numeric validators compare the incoming value with an integer
    before anything else, so assigning [None] to [Reviews.rating],
    [Order.quantity_ordered] or [Payment.payment_amount] ends in a
    [TypeError]; an integer out of range ends in the validator's own
    [ValueError]. *)
Theorem numeric_validators_reject_None (self : instance) :
  Orm.setattr Reviews.cls self "rating" VNone = Raise TypeError
  /\ Orm.setattr Order.cls self "quantity_ordered" VNone = Raise TypeError
  /\ Orm.setattr Payment.cls self "payment_amount" VNone = Raise TypeError
  /\ Orm.setattr Reviews.cls self "rating" (VInt 0)
     = Raise (ValueError "Rating must be between 1 and 5")
  /\ Orm.setattr Order.cls self "quantity_ordered" (VInt 0)
     = Raise (ValueError "Quantity ordered must be greater than 0")
  /\ Orm.setattr Payment.cls self "payment_amount" (VInt (-1))
     = Raise (ValueError "Payment amount cannot be negative").
Proof. repeat split; reflexivity. Qed.

(** The other two numeric columns and the message text, as the validators
    decide them. *)
Lemma quantity_ordered_assignment (self : instance) (q : Z) :
  Orm.setattr Order.cls self "quantity_ordered" (VInt q)
  = if bool_decide (0 < q) then Ok (<["quantity_ordered" := VInt q]> self)
    else Raise (ValueError "Quantity ordered must be greater than 0").
Proof.
  rewrite (setattr_validated _ Order.validate_quantity_ordered) by reflexivity.
  rewrite validate_quantity_ordered_int. by case_bool_decide.
Qed.

Lemma payment_amount_assignment (self : instance) (p : Z) :
  Orm.setattr Payment.cls self "payment_amount" (VInt p)
  = if bool_decide (0 <= p) then Ok (<["payment_amount" := VInt p]> self)
    else Raise (ValueError "Payment amount cannot be negative").
Proof.
  rewrite (setattr_validated _ Payment.validate_payment_amount) by reflexivity.
  rewrite validate_payment_amount_int. by case_bool_decide.
Qed.

Lemma message_text_assignment (self : instance) (s : string) :
  Orm.setattr ChatMessage.cls self "message_text" (VStr s)
  = if bool_decide (s <> "") then Ok (<["message_text" := VStr s]> self)
    else Raise (ValueError "Message text cannot be empty").
Proof.
  rewrite (setattr_validated _ ChatMessage.validate_message_text) by reflexivity.
  unfold ChatMessage.validate_message_text. cbn.
  destruct (String.eqb_spec s "") as [-> | Hne]; cbn.
  - by rewrite bool_decide_eq_false_2 by tauto.
  - by rewrite bool_decide_eq_true_2.
Qed.

(** ** Email and role *)

Lemma prefix_empty (s : string) : String.prefix "" s = true.
Proof. by destruct s. Qed.

(** Searching for a one-character string is membership of that character. *)
Lemma substring_of_char (c : ascii) (s : string) :
  Py.substring_of (String c "") s = true <-> c ∈ list_ascii_of_string s.
Proof.
  induction s as [| b s IH]; cbn.
  - split; [done | by intros ?%elem_of_nil].
  - rewrite elem_of_cons, <- IH. destruct (ascii_dec c b) as [-> | Hne].
    + rewrite prefix_empty. cbn. tauto.
    + cbn. split; [tauto | intros [? | ?]; congruence].
Qed.

Lemma validate_email_str (self : instance) (key s : string) :
  User.validate_email self key (VStr s)
  = if bool_decide (s <> "" /\ "@"%char ∈ list_ascii_of_string s) then Ok (VStr s)
    else Raise (ValueError "Invalid email address format").
Proof.
  unfold User.validate_email. cbn.
  destruct (String.eqb_spec s "") as [-> | Hne]; cbn.
  - rewrite bool_decide_eq_false_2; [done | tauto].
  - destruct (Py.substring_of "@" s) eqn:Hsub; cbn.
    + apply substring_of_char in Hsub. by rewrite bool_decide_eq_true_2.
    + rewrite bool_decide_eq_false_2; [done |].
      intros [_ Hin%substring_of_char]. congruence.
Qed.

(** C3: assigning a string [s] to [User.email] succeeds, and stores [s],
    exactly when [s] is non-empty and contains the character "@"; any other
    string, and [None], raise the validator's [ValueError]. *)
Theorem email_assignment (self : instance) (s : string) :
  Orm.setattr User.cls self "email" (VStr s)
  = (if bool_decide (s <> "" /\ "@"%char ∈ list_ascii_of_string s)
     then Ok (<["email" := VStr s]> self)
     else Raise (ValueError "Invalid email address format"))
  /\ (returns (Orm.setattr User.cls self "email" (VStr s))
      <-> s <> "" /\ "@"%char ∈ list_ascii_of_string s)
  /\ Orm.setattr User.cls self "email" VNone
     = Raise (ValueError "Invalid email address format").
Proof.
  assert (Hset :
    Orm.setattr User.cls self "email" (VStr s)
    = (if bool_decide (s <> "" /\ "@"%char ∈ list_ascii_of_string s)
       then Ok (<["email" := VStr s]> self)
       else Raise (ValueError "Invalid email address format"))).
  { rewrite (setattr_validated _ User.validate_email) by reflexivity.
    rewrite validate_email_str. by case_bool_decide. }
  split; [exact Hset |]. split; [| reflexivity].
  rewrite Hset. case_bool_decide as Hv.
  - split; [done | intros _; apply returns_Ok].
  - split; [intros H'; by apply not_returns_Raise in H' | done].
Qed.

Lemma in_roles (v : value) :
  Py.in_list v [VStr "Farmer"; VStr "customer"]
  = bool_decide (v = VStr "Farmer" \/ v = VStr "customer").
Proof.
  unfold Py.in_list, Py.eq. cbn.
  repeat case_bool_decide; try reflexivity; tauto.
Qed.

Lemma validate_schema_cases (self : instance) (data : dict) :
  User.validate_schema self data
  = match data !! "role" with
    | Some v =>
        if bool_decide (v = VStr "Farmer" \/ v = VStr "customer") then Ok VNone
        else Raise (ValidationError
                      ("Invalid role. Must be either " +:+ dquote +:+ "Farmer"
                       +:+ dquote +:+ " or " +:+ dquote +:+ "customer" +:+ dquote))
    | None => Ok VNone
    end.
Proof.
  unfold User.validate_schema, PyDict.has_key, PyDict.getitem.
  destruct (data !! "role") as [v |] eqn:Hrole.
  - rewrite bool_decide_eq_true_2 by eauto. cbn -[Py.in_list]. rewrite in_roles.
    by case_bool_decide.
  - rewrite bool_decide_eq_false_2 by (by intros [? ?]). reflexivity.
Qed.

(** C4: the role is checked on the payload path only.  Validating a payload
    raises (a [ValidationError]) exactly when the payload has the key "role"
    with a value other than the strings "Farmer" and "customer"; assigning to
    [User.role] stores whatever it is given and never raises. *)
Theorem role_checked_on_payload_only (self : instance) :
  (forall data : dict,
     raises (User.validate_schema self data)
     <-> exists v, data !! "role" = Some v /\ v <> VStr "Farmer" /\ v <> VStr "customer")
  /\ (forall data : dict,
        raises (User.validate_schema self data)
        <-> exists msg, User.validate_schema self data = Raise (ValidationError msg))
  /\ (forall v : value,
        Orm.setattr User.cls self "role" v = Ok (<["role" := v]> self)).
Proof.
  split; [| split].
  - intros data. rewrite validate_schema_cases.
    destruct (data !! "role") as [v |].
    + case_bool_decide as Hv.
      * split; [intros H'; by apply not_raises_Ok in H' |].
        intros (v' & [= <-] & ? & ?). tauto.
      * split; [| intros _; apply raises_Raise].
        intros _. exists v. split; [done |]. tauto.
    + split; [intros H'; by apply not_raises_Ok in H' |].
      by intros (v' & [=] & _).
  - intros data. rewrite validate_schema_cases.
    destruct (data !! "role") as [v |]; [case_bool_decide |].
    + split; [intros H'; by apply not_raises_Ok in H' | by intros [? [=]]].
    + split; [eauto | intros _; apply raises_Raise].
    + split; [intros H'; by apply not_raises_Ok in H' | by intros [? [=]]].
  - intros v. by apply setattr_plain.
Qed.

(** ** The migration *)

(** C5: upgrade creates the nine tables in the order user, chat_message,
    farmer, product, order, reviews, association_order_product,
    association_product_review, payment, and creates nothing else;
    downgrade drops exactly these tables, in the reverse order. *)
Theorem downgrade_reverses_upgrade :
  Migration.created Migration.upgrade
  = ["user"; "chat_message"; "farmer"; "product"; "order"; "reviews";
     "association_order_product"; "association_product_review"; "payment"]
  /\ length Migration.upgrade = 9%nat
  /\ Migration.dropped Migration.upgrade = []
  /\ Migration.created Migration.downgrade = []
  /\ length Migration.downgrade = 9%nat
  /\ Migration.dropped Migration.downgrade = rev (Migration.created Migration.upgrade).
Proof. repeat split; reflexivity. Qed.

(** On a schema that checks foreign keys, upgrade runs from the empty schema
    and downgrade then leaves nothing behind. *)
Lemma upgrade_then_downgrade :
  exists s,
    Migration.run Migration.upgrade [] = Ok s
    /\ s.*1 = Migration.created Migration.upgrade
    /\ Migration.run Migration.downgrade s = Ok [].
Proof. eexists. repeat split; vm_compute; reflexivity. Qed.

(** ** Serialization of an order *)

Lemma display_dom (v1 v2 v3 v4 v5 : value) :
  dom (PyDict.display [ ("id", v1); ("order_date", v2); ("quantity_ordered", v3);
                        ("total_price", v4); ("order_status", v5) ])
  = ({[ "id"; "order_date"; "quantity_ordered"; "total_price"; "order_status" ]}
     : gset string).
Proof.
  unfold PyDict.display. cbn [foldl fst snd].
  rewrite !dom_insert_L, dom_empty_L. set_solver.
Qed.

(** C8: for an order whose [order_date] is a timestamp or [None],
    [serialize] returns a mapping with exactly the keys id, order_date,
    quantity_ordered, total_price and order_status; each holds the stored
    attribute, except order_date, which is the timestamp formatted with
    "%Y-%m-%d %H:%M:%S", or [None] without a timestamp.  The columns of the
    order that are not in the mapping are the foreign keys customer_id and
    product_id. *)
Theorem order_serialize (self : instance) :
  (Orm.getattr self "order_date" = VNone
   \/ exists d, Orm.getattr self "order_date" = VDateTime d) ->
  exists m : dict,
    Order.serialize self = Ok m
    /\ dom m = ({[ "id"; "order_date"; "quantity_ordered"; "total_price";
                   "order_status" ]} : gset string)
    /\ m !! "id" = Some (Orm.getattr self "id")
    /\ m !! "order_date"
       = Some (match Orm.getattr self "order_date" with
               | VDateTime d => VStr (Py.strftime "%Y-%m-%d %H:%M:%S" d)
               | _ => VNone
               end)
    /\ m !! "quantity_ordered" = Some (Orm.getattr self "quantity_ordered")
    /\ m !! "total_price" = Some (Orm.getattr self "total_price")
    /\ m !! "order_status" = Some (Orm.getattr self "order_status")
    /\ col_name <$> List.filter (fun c => bool_decide (col_name c ∉ dom m))
                                (columns Order.cls)
       = ["customer_id"; "product_id"].
Proof.
  intros Hdate. unfold Order.serialize.
  set (date := Orm.getattr self "order_date") in *.
  assert (Hfmt :
    (if Py.truthy date then Py.strftime_method date "%Y-%m-%d %H:%M:%S" else Ok VNone)
    = Ok (match date with
          | VDateTime d => VStr (Py.strftime "%Y-%m-%d %H:%M:%S" d)
          | _ => VNone
          end)).
  { destruct Hdate as [-> | [d ->]]; reflexivity. }
  rewrite Hfmt. clear Hfmt Hdate.
  eexists. split; [reflexivity |].
  split; [apply display_dom |].
  rewrite display_dom.
  unfold PyDict.display. cbn [foldl fst snd].
  do 5 (split; [by simplify_map_eq |]).
  reflexivity.
Qed.

Lemma order_serialize_witness :
  exists m : dict,
    Order.serialize sample_order = Ok m
    /\ dom m = ({[ "id"; "order_date"; "quantity_ordered"; "total_price";
                   "order_status" ]} : gset string)
    /\ m !! "order_date" = Some (VStr "2024-03-11 11:38:03").
Proof.
  destruct (order_serialize sample_order) as (m & Hm & Hdom & _ & Hdate & _).
  - right. eexists. reflexivity.
  - exists m. repeat split; [exact Hm | exact Hdom | exact Hdate].
Defined.

(** ** The password property *)

Lemma encode_inj (p q : string) : Py.encode p = Py.encode q -> p = q.
Proof.
  unfold Py.encode. intros Heq.
  rewrite <- (string_of_list_byte_of_string p), <- (string_of_list_byte_of_string q).
  by rewrite Heq.
Qed.

(** Reading the property raises, whatever the instance holds. *)
Lemma password_hash_unreadable (self : instance) : raises (User.password_hash self).
Proof. apply raises_Raise. Qed.

(** What a successful write has done: the plaintext was a string, the
    library hashed its bytes with the salt, and the text of that hash is the
    new [_password_hash]. *)
Lemma password_hash_setter_inv (bcrypt : Bcrypt) (s : salt bcrypt)
    (self self' : instance) (password : value) :
  User.password_hash_setter bcrypt s self password = Ok self' ->
  exists (plain : string) (h : list byte),
    password = VStr plain
    /\ generate_password_hash bcrypt (Py.encode plain) s = Ok h
    /\ Py.utf8_valid h = true
    /\ self' = <["_password_hash" := VStr (string_of_list_byte h)]> self.
Proof.
  unfold User.password_hash_setter, Py.decode.
  destruct password as [| n | plain | d]; try discriminate. cbn.
  destruct (generate_password_hash bcrypt (Py.encode plain) s) as [h |] eqn:Hgen;
    [| discriminate]. cbn.
  destruct (Py.utf8_valid h) eqn:Hvalid; [| discriminate]. cbn.
  intros [= <-]. by exists plain, h.
Qed.

Lemma plain_bcrypt_contract : bcrypt_contract plain_bcrypt.
Proof.
  intros password s h [= <-] candidate.
  cbv beta iota delta [check_password_hash plain_bcrypt].
  by rewrite list_byte_of_string_of_list_byte.
Qed.






(** ** Deleting a user *)

Section filter_by_key.
Context {A K : Type} `{EqDecision K}.
Variable key : A -> K.

Lemma filter_filter (f g : A -> bool) (l : list A) :
  List.filter g (List.filter f l) = List.filter (fun x => f x && g x) l.
Proof.
  induction l as [| x l IH]; [done |]. cbn.
  destruct (f x); cbn; [destruct (g x) |]; by rewrite IH.
Qed.

Lemma key_inj_of_NoDup (l : list A) (x y : A) :
  NoDup (key <$> l) -> x ∈ l -> y ∈ l -> key x = key y -> x = y.
Proof.
  induction l as [| z l IH]; [by intros _ ?%elem_of_nil |].
  rewrite fmap_cons, NoDup_cons. intros [Hz Hl].
  rewrite !elem_of_cons. intros [-> | Hx] [-> | Hy] Heq; try done.
  - exfalso. apply Hz. rewrite Heq. by apply list_elem_of_fmap_2.
  - exfalso. apply Hz. rewrite <- Heq. by apply list_elem_of_fmap_2.
  - by apply IH.
Qed.

Lemma NoDup_key_filter (f : A -> bool) (l : list A) :
  NoDup (key <$> l) -> NoDup (key <$> List.filter f l).
Proof.
  induction l as [| x l IH]; [done |]. cbn.
  rewrite NoDup_cons. intros [Hx Hl]. destruct (f x); [| by apply IH].
  rewrite fmap_cons, NoDup_cons. split; [| by apply IH].
  intros (y & Hkey & Hy%list_elem_of_In%filter_In%proj1%list_elem_of_In)%list_elem_of_fmap.
  apply Hx. rewrite Hkey. by apply list_elem_of_fmap_2.
Qed.

(** With unique keys, removing by key everything that satisfies [f] is
    removing what satisfies [f]. *)
Lemma remove_keys_of_filter (f : A -> bool) (l : list A) :
  NoDup (key <$> l) ->
  List.filter
    (fun x => forallb (fun c => negb (bool_decide (key x = key c))) (List.filter f l)) l
  = List.filter (fun x => negb (f x)) l.
Proof.
  intros Hnodup. apply filter_ext_in. intros x Hx%list_elem_of_In.
  destruct (f x) eqn:Hfx; cbn.
  - apply not_true_is_false. rewrite forallb_forall. intros Hall.
    specialize (Hall x). rewrite bool_decide_eq_true_2 in Hall by done.
    cbn in Hall. assert (false = true); [| done].
    apply Hall, filter_In. split; [by apply list_elem_of_In | done].
  - apply forallb_forall. intros c [Hc%list_elem_of_In Hfc]%filter_In.
    apply negb_true_iff, bool_decide_eq_false_2. intros Heq.
    assert (x = c) as -> by eauto using key_inj_of_NoDup. congruence.
Qed.
End filter_by_key.

Lemma rows_insert_eq (db : database) (table : string) (l : list instance) :
  Session.rows (<[table := l]> db) table = l.
Proof. unfold Session.rows. by rewrite lookup_insert_eq. Qed.

Lemma rows_insert_ne (db : database) (table table' : string) (l : list instance) :
  table <> table' -> Session.rows (<[table := l]> db) table' = Session.rows db table'.
Proof. intros Hne. unfold Session.rows. by rewrite lookup_insert_ne. Qed.

Lemma rows_ext (db db' : database) (table : string) :
  db' !! table = db !! table -> Session.rows db' table = Session.rows db table.
Proof. unfold Session.rows. by intros ->. Qed.

Lemma delete_unfold (fuel : nat) (cls : mapped_class) (pk : value) (db : database) :
  Session.delete (S fuel) cls pk db
  = (db' ← foldl (Session.on_parent_delete (Session.delete fuel) cls pk) (Some db)
                 (relationships cls);
     Some (<[tablename cls :=
               List.filter (fun row => negb (Session.points_to "id" pk row))
                           (Session.rows db' (tablename cls))]> db')).
Proof. reflexivity. Qed.

(** Along a relationship without the delete cascade the children stay and
    lose their reference to the parent. *)
Lemma on_parent_delete_nullify
    (del : mapped_class -> value -> database -> option database)
    (parent target : mapped_class) (pk : value) (db : database)
    (name fk : string) (r : relationship) :
  Session.find_class (rel_target r) = Some target ->
  Session.is_secondary r = false ->
  Session.fk_column parent target r = Some fk ->
  Session.delete_cascade r = false ->
  Session.on_parent_delete del parent pk (Some db) (name, r)
  = Some (<[tablename target :=
              Session.nullify fk pk <$> Session.rows db (tablename target)]> db).
Proof.
  intros Htarget Hsec Hfk Hcascade. unfold Session.on_parent_delete.
  cbn [mbind option_bind snd]. rewrite Htarget.
  cbn [mbind option_bind]. rewrite Hsec, Hfk.
  cbn [mbind option_bind]. by rewrite Hcascade.
Qed.

(** Along a relationship with the delete cascade every child is deleted. *)
Lemma on_parent_delete_cascade
    (del : mapped_class -> value -> database -> option database)
    (parent target : mapped_class) (pk : value) (db : database)
    (name fk : string) (r : relationship) :
  Session.find_class (rel_target r) = Some target ->
  Session.is_secondary r = false ->
  Session.fk_column parent target r = Some fk ->
  Session.delete_cascade r = true ->
  Session.on_parent_delete del parent pk (Some db) (name, r)
  = foldl (fun acc child => db ← acc; del target (Orm.getattr child "id") db)
          (Some db)
          (List.filter (Session.points_to fk pk) (Session.rows db (tablename target))).
Proof.
  intros Htarget Hsec Hfk Hcascade. unfold Session.on_parent_delete.
  cbn [mbind option_bind snd]. rewrite Htarget.
  cbn [mbind option_bind]. rewrite Hsec, Hfk.
  cbn [mbind option_bind]. by rewrite Hcascade.
Qed.

(** Deleting a list of chat messages one by one removes the rows that carry
    one of their keys and touches no other table. *)
Lemma delete_messages (fuel : nat) (children : list instance) (db : database) :
  exists db' : database,
    foldl (fun acc child =>
             db ← acc;
             Session.delete (S fuel) ChatMessage.cls (Orm.getattr child "id") db)
          (Some db) children = Some db'
    /\ Session.rows db' "chat_message"
       = List.filter
           (fun row => forallb (fun c => negb (bool_decide (Orm.getattr row "id"
                                                            = Orm.getattr c "id")))
                               children)
           (Session.rows db "chat_message")
    /\ forall table : string, table <> "chat_message" -> db' !! table = db !! table.
Proof.
  revert db. induction children as [| c cs IH]; intros db.
  - exists db. cbn. split; [done |]. split; [| done].
    symmetry. apply forallb_filter_id. by apply forallb_forall.
  - cbn [foldl]. cbn [mbind option_bind]. rewrite delete_unfold. cbn [relationships ChatMessage.cls foldl tablename mbind option_bind].
    destruct (IH (<["chat_message" :=
                      List.filter (fun row => negb (Session.points_to "id" (Orm.getattr c "id") row))
                                  (Session.rows db "chat_message")]> db))
      as (db' & Hfold & Hrows & Hother).
    exists db'. split; [exact Hfold |]. split.
    + rewrite Hrows, rows_insert_eq, filter_filter. apply filter_ext. intros row.
      reflexivity.
    + intros table Hne. rewrite Hother by done. by rewrite lookup_insert_ne.
Qed.

Lemma getattr_nullify (fk key : string) (pk : value) (row : instance) :
  fk <> key -> Orm.getattr (Session.nullify fk pk row) key = Orm.getattr row key.
Proof.
  intros Hne. unfold Session.nullify, Orm.getattr.
  destruct (Session.points_to fk pk row); [| done]. by rewrite lookup_insert_ne.
Qed.

(** C6: deleting a user deletes the chat messages whose sender or receiver
    is that user, and the user; no farmer, order or review is deleted: their
    rows stay, with the reference to the user set to [None], and every other
    table is left as it was.  Primary keys of chat messages are unique. *)
Theorem delete_user_cascades_to_messages_only (fuel : nat) (uid : Z) (db : database) :
  NoDup ((fun m => Orm.getattr m "id") <$> Session.rows db "chat_message") ->
  exists db' : database,
    Session.delete (S (S fuel)) User.cls (VInt uid) db = Some db'
    /\ Session.rows db' "user"
       = List.filter (fun u => negb (Session.points_to "id" (VInt uid) u))
                     (Session.rows db "user")
    /\ Session.rows db' "chat_message"
       = List.filter (fun m => negb (Session.points_to "sender_id" (VInt uid) m)
                               && negb (Session.points_to "receiver_id" (VInt uid) m))
                     (Session.rows db "chat_message")
    /\ Session.rows db' "farmer"
       = Session.nullify "user_id" (VInt uid) <$> Session.rows db "farmer"
    /\ Session.rows db' "order"
       = Session.nullify "customer_id" (VInt uid) <$> Session.rows db "order"
    /\ Session.rows db' "reviews"
       = Session.nullify "customer_id" (VInt uid) <$> Session.rows db "reviews"
    /\ (forall table : string, table ∈ ["farmer"; "order"; "reviews"] ->
          (fun row => Orm.getattr row "id") <$> Session.rows db' table
          = (fun row => Orm.getattr row "id") <$> Session.rows db table)
    /\ (forall table : string,
          table ∉ ["user"; "chat_message"; "farmer"; "order"; "reviews"] ->
          db' !! table = db !! table).
Proof.
  intros Hnodup. rewrite delete_unfold.
  cbn [relationships User.cls foldl].
  rewrite (on_parent_delete_nullify _ User.cls Farmer.cls _ _ _ "user_id")
    by reflexivity.
  rewrite (on_parent_delete_nullify _ User.cls Order.cls _ _ _ "customer_id")
    by reflexivity.
  rewrite (on_parent_delete_nullify _ User.cls Reviews.cls _ _ _ "customer_id")
    by reflexivity.
  cbn [tablename Farmer.cls Order.cls Reviews.cls].
  set (db1 := <["farmer" := _]> db).
  set (db2 := <["order" := _]> db1).
  set (db3 := <["reviews" := _]> db2).
  assert (Hmsgs3 : Session.rows db3 "chat_message" = Session.rows db "chat_message").
  { unfold db3, db2, db1. by rewrite !rows_insert_ne. }
  rewrite (on_parent_delete_cascade _ User.cls ChatMessage.cls _ _ _ "sender_id")
    by reflexivity.
  cbn [tablename ChatMessage.cls].
  destruct (delete_messages fuel
              (List.filter (Session.points_to "sender_id" (VInt uid))
                           (Session.rows db3 "chat_message")) db3)
    as (db4 & -> & Hrows4 & Hother4).
  rewrite (remove_keys_of_filter (fun m => Orm.getattr m "id")) in Hrows4
    by (by rewrite Hmsgs3).
  rewrite (on_parent_delete_cascade _ User.cls ChatMessage.cls _ _ _ "receiver_id")
    by reflexivity.
  cbn [tablename ChatMessage.cls].
  destruct (delete_messages fuel
              (List.filter (Session.points_to "receiver_id" (VInt uid))
                           (Session.rows db4 "chat_message")) db4)
    as (db5 & -> & Hrows5 & Hother5).
  rewrite (remove_keys_of_filter (fun m => Orm.getattr m "id")) in Hrows5
    by (rewrite Hrows4, Hmsgs3; by apply NoDup_key_filter).
  rewrite Hrows4, Hmsgs3, filter_filter in Hrows5.
  assert (Hkeep : forall table : string,
            table <> "chat_message" -> db5 !! table = db3 !! table).
  { intros table Hne. by rewrite Hother5, Hother4. }
  cbn [mbind option_bind tablename User.cls].
  eexists. split; [reflexivity |].
  split.
  { rewrite rows_insert_eq. f_equal. rewrite (rows_ext db3 db5) by by apply Hkeep.
    unfold db3, db2, db1. by rewrite !rows_insert_ne. }
  split.
  { by rewrite rows_insert_ne, Hrows5. }
  assert (Hfarmer : Session.rows (<["user" :=
              List.filter (fun row => negb (Session.points_to "id" (VInt uid) row))
                          (Session.rows db5 "user")]> db5) "farmer"
            = Session.nullify "user_id" (VInt uid) <$> Session.rows db "farmer").
  { rewrite rows_insert_ne by done. rewrite (rows_ext db3 db5) by by apply Hkeep.
    unfold db3, db2. rewrite !rows_insert_ne by done. apply rows_insert_eq. }
  assert (Horder : Session.rows (<["user" :=
              List.filter (fun row => negb (Session.points_to "id" (VInt uid) row))
                          (Session.rows db5 "user")]> db5) "order"
            = Session.nullify "customer_id" (VInt uid) <$> Session.rows db "order").
  { rewrite rows_insert_ne by done. rewrite (rows_ext db3 db5) by by apply Hkeep.
    unfold db3. rewrite !rows_insert_ne by done. unfold db2. rewrite rows_insert_eq.
    unfold db1. by rewrite rows_insert_ne. }
  assert (Hreviews : Session.rows (<["user" :=
              List.filter (fun row => negb (Session.points_to "id" (VInt uid) row))
                          (Session.rows db5 "user")]> db5) "reviews"
            = Session.nullify "customer_id" (VInt uid) <$> Session.rows db "reviews").
  { rewrite rows_insert_ne by done. rewrite (rows_ext db3 db5) by by apply Hkeep.
    unfold db3. rewrite rows_insert_eq.
    unfold db2, db1. by rewrite !rows_insert_ne. }
  do 3 (split; [assumption |]).
  split.
  - intros table Htable.
    assert (Hids : forall (fk : string) (l : list instance), fk <> "id" ->
              (fun row => Orm.getattr row "id") <$> (Session.nullify fk (VInt uid) <$> l)
              = (fun row => Orm.getattr row "id") <$> l).
    { intros fk l Hfk. rewrite <- list_fmap_compose. apply list_fmap_ext.
      intros i row _. cbn. by apply getattr_nullify. }
    rewrite !elem_of_cons in Htable.
    destruct Htable as [-> | [-> | [-> | Hnil]]];
      [rewrite Hfarmer | rewrite Horder | rewrite Hreviews | by apply elem_of_nil in Hnil];
      by apply Hids.
  - intros table Htable. rewrite !not_elem_of_cons in Htable.
    destruct Htable as (? & ? & ? & ? & ? & _).
    rewrite lookup_insert_ne by done. rewrite Hkeep by done.
    unfold db3, db2, db1. by rewrite !lookup_insert_ne.
Qed.

Lemma delete_user_cascades_to_messages_only_witness :
  exists db' : database,
    Session.delete 2 User.cls (VInt 1) sample_database = Some db'
    /\ Session.rows db' "chat_message" = [sample_message 3 2 2]
    /\ (fun row => Orm.getattr row "id") <$> Session.rows db' "farmer" = [VInt 1].
Proof.
  destruct (delete_user_cascades_to_messages_only 0 1 sample_database)
    as (db' & Hdel & _ & Hmsgs & Hfarmer & _).
  - apply (bool_decide_unpack _). vm_compute. exact I.
  - exists db'. split; [exact Hdel |]. split; [exact Hmsgs |].
    rewrite Hfarmer. reflexivity.
Defined.

(** The same deletion, evaluated: of the three messages only the one between
    other users is left, and the farmer of the deleted user is still there. *)
Example delete_user_sample :
  (fun db' => (Session.rows db' "user", Session.rows db' "chat_message",
               Session.rows db' "farmer"))
    <$> Session.delete 2 User.cls (VInt 1) sample_database
  = Some ([ {[ "id" := VInt 2 ]} ], [ sample_message 3 2 2 ],
          [ {[ "id" := VInt 1; "user_id" := VNone ]} ]).
Proof. vm_compute. reflexivity. Qed.

(** Without fuel for the cascade the deletion gives no result. *)
Example delete_user_out_of_fuel :
  Session.delete 1 User.cls (VInt 1) sample_database = None.
Proof. vm_compute. reflexivity. Qed.

(** * Further properties of the entity layer *)

(** ** Validators beyond the rating and the email *)

Lemma returns_iff_not_raises {A} (r : result A) : returns r <-> ~ raises r.
Proof.
  destruct r as [a | e]; split.
  - intros _ H'. by apply not_raises_Ok in H'.
  - intros _. apply returns_Ok.
  - intros H'. by apply not_returns_Raise in H'.
  - intros H'. exfalso. apply H', raises_Raise.
Qed.

(** X1: assigning an integer [q] to [Order.quantity_ordered] succeeds, and
    stores [q], exactly when [q] is positive; zero and the negative numbers
    raise the validator's [ValueError]. *)
Theorem quantity_ordered_positive (self : instance) (q : Z) :
  (returns (Orm.setattr Order.cls self "quantity_ordered" (VInt q)) <-> 0 < q)
  /\ Orm.setattr Order.cls self "quantity_ordered" (VInt q)
     = (if bool_decide (0 < q) then Ok (<["quantity_ordered" := VInt q]> self)
        else Raise (ValueError "Quantity ordered must be greater than 0"))
  /\ raises (Orm.setattr Order.cls self "quantity_ordered" (VInt 0))
  /\ returns (Orm.setattr Order.cls self "quantity_ordered" (VInt 1)).
Proof.
  split; [| split; [apply quantity_ordered_assignment |]].
  - rewrite quantity_ordered_assignment. case_bool_decide as Hq.
    + split; [done | intros _; apply returns_Ok].
    + split; [intros H'; by apply not_returns_Raise in H' | done].
  - split; [apply raises_Raise | apply returns_Ok].
Qed.

(** X2: assigning an integer [p] to [Payment.payment_amount] succeeds, and
    stores [p], exactly when [p] is not negative; zero is accepted. *)
Theorem payment_amount_not_negative (self : instance) (p : Z) :
  (returns (Orm.setattr Payment.cls self "payment_amount" (VInt p)) <-> 0 <= p)
  /\ Orm.setattr Payment.cls self "payment_amount" (VInt p)
     = (if bool_decide (0 <= p) then Ok (<["payment_amount" := VInt p]> self)
        else Raise (ValueError "Payment amount cannot be negative"))
  /\ raises (Orm.setattr Payment.cls self "payment_amount" (VInt (-1)))
  /\ returns (Orm.setattr Payment.cls self "payment_amount" (VInt 0)).
Proof.
  split; [| split; [apply payment_amount_assignment |]].
  - rewrite payment_amount_assignment. case_bool_decide as Hp.
    + split; [done | intros _; apply returns_Ok].
    + split; [intros H'; by apply not_returns_Raise in H' | done].
  - split; [apply raises_Raise | apply returns_Ok].
Qed.

(** X3: the message text is tested for truth, not for its type.  [None],
    the empty string and the number zero are rejected with the validator's
    [ValueError]; every non-empty string is stored, and so is every number
    other than zero and every timestamp. *)
Theorem message_text_is_tested_for_truth (self : instance) :
  (forall s : string,
     Orm.setattr ChatMessage.cls self "message_text" (VStr s)
     = if bool_decide (s <> "") then Ok (<["message_text" := VStr s]> self)
       else Raise (ValueError "Message text cannot be empty"))
  /\ Orm.setattr ChatMessage.cls self "message_text" VNone
     = Raise (ValueError "Message text cannot be empty")
  /\ (forall n : Z,
        Orm.setattr ChatMessage.cls self "message_text" (VInt n)
        = if bool_decide (n <> 0) then Ok (<["message_text" := VInt n]> self)
          else Raise (ValueError "Message text cannot be empty"))
  /\ (forall d : datetime,
        Orm.setattr ChatMessage.cls self "message_text" (VDateTime d)
        = Ok (<["message_text" := VDateTime d]> self)).
Proof.
  split; [apply message_text_assignment |]. split; [reflexivity |].
  split; [| reflexivity].
  intros n. rewrite (setattr_validated _ ChatMessage.validate_message_text) by reflexivity.
  unfold ChatMessage.validate_message_text. cbn.
  destruct (Z.eqb_spec n 0); case_bool_decide; try lia; reflexivity.
Qed.

(** X4: the three numeric validators do not convert their input.  A string,
    a numeric one such as "5" included, and a timestamp end in a [TypeError]
    from the comparison with an integer, as [None] does. *)
Theorem numeric_validators_do_not_convert (self : instance) :
  (forall s : string,
     Orm.setattr Reviews.cls self "rating" (VStr s) = Raise TypeError
     /\ Orm.setattr Order.cls self "quantity_ordered" (VStr s) = Raise TypeError
     /\ Orm.setattr Payment.cls self "payment_amount" (VStr s) = Raise TypeError)
  /\ (forall d : datetime,
        Orm.setattr Reviews.cls self "rating" (VDateTime d) = Raise TypeError
        /\ Orm.setattr Order.cls self "quantity_ordered" (VDateTime d) = Raise TypeError
        /\ Orm.setattr Payment.cls self "payment_amount" (VDateTime d) = Raise TypeError)
  /\ Orm.setattr Reviews.cls self "rating" (VStr "5") = Raise TypeError.
Proof. repeat split; reflexivity. Qed.

Lemma find_validator_cons (key k : string) (f : validator) (vs : list (string * validator)) :
  Orm.find_validator key ((k, f) :: vs)
  = if String.eqb k key then Some f else Orm.find_validator key vs.
Proof. reflexivity. Qed.

(** The validator table of a class of the registry, entry by entry. *)
Ltac unfold_validators H :=
  cbn [validators User.cls Farmer.cls Reviews.cls Product.cls Order.cls Payment.cls
       ChatMessage.cls] in H;
  rewrite ?find_validator_cons in H;
  cbn [Orm.find_validator] in H.

(** A validator that returns hands back the value it was given. *)
Lemma validators_return_their_argument (cls : mapped_class) (f : validator)
    (self : instance) (key : string) (v v' : value) :
  cls ∈ registry ->
  Orm.find_validator key (validators cls) = Some f ->
  f self key v = Ok v' -> v' = v.
Proof.
  intros Hcls Hfind. unfold registry in Hcls. rewrite !elem_of_cons in Hcls.
  destruct Hcls as [-> | [-> | [-> | [-> | [-> | [-> | [-> | Hnil]]]]]]];
    [| | | | | | | by apply elem_of_nil in Hnil];
    unfold_validators Hfind;
    repeat match type of Hfind with
           | context [String.eqb ?a key] => destruct (String.eqb a key)
           end;
    try discriminate; injection Hfind as <-.
  - unfold User.validate_email.
    destruct (negb (Py.truthy v)); cbn; [discriminate |].
    destruct (Py.str_in "@" v) as [[] |]; cbn; congruence.
  - unfold Reviews.validate_rating.
    destruct (Py.lt v (VInt 1)) as [[] |]; cbn; [discriminate | | discriminate].
    destruct (Py.gt v (VInt 5)) as [[] |]; cbn; congruence.
  - unfold Order.validate_quantity_ordered.
    destruct (Py.le v (VInt 0)) as [[] |]; cbn; congruence.
  - unfold Payment.validate_payment_amount.
    destruct (Py.lt v (VInt 0)) as [[] |]; cbn; congruence.
  - unfold ChatMessage.validate_message_text.
    destruct (negb (Py.truthy v)); congruence.
Qed.

Lemma setattr_Ok_inv (cls : mapped_class)
    (self self' : instance) (key : string) (v : value) :
  cls ∈ registry ->
  Orm.setattr cls self key v = Ok self' ->
  self' = <[key := v]> self.
Proof.
  intros Hcls. unfold Orm.setattr.
  destruct (Orm.find_validator key (validators cls)) as [f |] eqn:Hfind.
  - destruct (f self key v) as [v' |] eqn:Hf; cbn; [| discriminate].
    intros [= <-]. by rewrite (validators_return_their_argument cls f self key v v').
  - by intros [= <-].
Qed.

(** X5: on every mapped class, an assignment to a column that succeeds
    stores exactly the value it was given under that column: no validator
    rewrites, trims or converts its input, and no other attribute changes. *)
Theorem assignment_stores_the_value (cls : mapped_class)
    (self self' : instance) (key : string) (v : value) :
  cls ∈ registry ->
  key ∈ col_name <$> columns cls ->
  Orm.setattr cls self key v = Ok self' ->
  self' = <[key := v]> self
  /\ forall other : string, other <> key -> self' !! other = self !! other.
Proof.
  intros Hcls _ Hset. apply setattr_Ok_inv in Hset as ->; [| done].
  split; [done |]. intros other Hne. by rewrite lookup_insert_ne.
Qed.

Lemma assignment_stores_the_value_witness :
  (<["email" := VStr "a@x.com"]> {[ "username" := VStr "alice" ]} : instance)
  = <["email" := VStr "a@x.com"]> {[ "username" := VStr "alice" ]}
  /\ forall other : string,
       other <> "email" ->
       (<["email" := VStr "a@x.com"]> {[ "username" := VStr "alice" ]} : instance) !! other
       = ({[ "username" := VStr "alice" ]} : instance) !! other.
Proof.
  apply (assignment_stores_the_value User.cls {[ "username" := VStr "alice" ]}
           (<["email" := VStr "a@x.com"]> {[ "username" := VStr "alice" ]})
           "email" (VStr "a@x.com")).
  - apply list_elem_of_here.
  - apply (bool_decide_unpack _). reflexivity.
  - reflexivity.
Defined.

(** X6: of all the columns only five are guarded: [User.email],
    [Reviews.rating], [Order.quantity_ordered], [Payment.payment_amount] and
    [ChatMessage.message_text].  Assigning to any other column of any mapped
    class succeeds for every value; in particular nothing checks a price, a
    foreign key, a status or a unique column at assignment. *)
Theorem unguarded_columns_accept_everything (cls : mapped_class)
    (self : instance) (key : string) (v : value) :
  cls ∈ registry ->
  key ∈ col_name <$> columns cls ->
  (class_name cls, key)
    ∉ [ ("User", "email"); ("Reviews", "rating"); ("Order", "quantity_ordered");
        ("Payment", "payment_amount"); ("ChatMessage", "message_text") ] ->
  Orm.setattr cls self key v = Ok (<[key := v]> self).
Proof.
  intros Hcls _ Hkey.
  destruct (Orm.find_validator key (validators cls)) as [f |] eqn:Hfind;
    [exfalso | by apply setattr_plain].
  unfold registry in Hcls. rewrite !elem_of_cons in Hcls.
  rewrite !not_elem_of_cons in Hkey.
  destruct Hkey as (Hemail & Hrating & Hquantity & Hpayment & Hmessage & _).
  destruct Hcls as [-> | [-> | [-> | [-> | [-> | [-> | [-> | Hnil]]]]]]];
    [| | | | | | | by apply elem_of_nil in Hnil];
    unfold_validators Hfind; try discriminate;
    match type of Hfind with
    | context [String.eqb ?a key] =>
        destruct (String.eqb_spec a key) as [<- | Hne]; [| discriminate]
    end; cbn in *; auto.
Qed.

Lemma unguarded_columns_accept_everything_witness :
  Orm.setattr Product.cls ∅ "price" (VInt (-5)) = Ok (<["price" := VInt (-5)]> ∅).
Proof.
  apply (unguarded_columns_accept_everything Product.cls ∅ "price" (VInt (-5))).
  - do 3 apply list_elem_of_further. apply list_elem_of_here.
  - apply (bool_decide_unpack _). reflexivity.
  - apply (bool_decide_unpack _). reflexivity.
Defined.

(** X7: the email validator outside of the strings.  [None] and the number
    zero are rejected with the validator's [ValueError], like the empty
    string; a number other than zero or a timestamp reaches the search for
    "@" and ends in a [TypeError]. *)
Theorem email_of_another_type (self : instance) :
  (forall n : Z,
     Orm.setattr User.cls self "email" (VInt n)
     = Raise (if bool_decide (n = 0) then ValueError "Invalid email address format"
              else TypeError))
  /\ (forall d : datetime,
        Orm.setattr User.cls self "email" (VDateTime d) = Raise TypeError)
  /\ Orm.setattr User.cls self "email" VNone
     = Raise (ValueError "Invalid email address format")
  /\ Orm.setattr User.cls self "email" (VStr "")
     = Raise (ValueError "Invalid email address format").
Proof.
  split; [| by repeat split].
  intros n. rewrite (setattr_validated _ User.validate_email) by reflexivity.
  unfold User.validate_email. cbn.
  destruct (Z.eqb_spec n 0); case_bool_decide; try lia; reflexivity.
Qed.

(** ** Serializing an order, further *)

Lemma getattr_insert_ne (self : instance) (key key' : string) (v : value) :
  key <> key' -> Orm.getattr (<[key := v]> self) key' = Orm.getattr self key'.
Proof. intros Hne. unfold Orm.getattr. by rewrite lookup_insert_ne. Qed.

Lemma getattr_insert_eq (self : instance) (key : string) (v : value) :
  Orm.getattr (<[key := v]> self) key = v.
Proof. unfold Orm.getattr. by rewrite lookup_insert_eq. Qed.

(** X8: [serialize] reads five attributes and nothing else: two orders that
    agree on id, order_date, quantity_ordered, total_price and order_status
    serialize alike, whatever their customer, product or any other
    attribute. *)
Theorem serialize_reads_five_attributes (self other : instance) :
  (forall key : string,
     key ∈ ["id"; "order_date"; "quantity_ordered"; "total_price"; "order_status"] ->
     Orm.getattr other key = Orm.getattr self key) ->
  Order.serialize other = Order.serialize self.
Proof.
  intros Hagree. unfold Order.serialize.
  rewrite !Hagree by (apply (bool_decide_unpack _); reflexivity).
  reflexivity.
Qed.

Lemma serialize_reads_five_attributes_witness :
  Order.serialize (<["customer_id" := VInt 99]> sample_order) = Order.serialize sample_order.
Proof.
  apply (serialize_reads_five_attributes sample_order
           (<["customer_id" := VInt 99]> sample_order)).
  intros key Hkey. apply getattr_insert_ne.
  intros <-. revert Hkey. apply (bool_decide_unpack _). reflexivity.
Defined.

(** X9: [serialize] on an order_date that is not a timestamp.  An empty
    string and the number zero are not true, so they are serialized exactly
    as [None] is; a non-empty string, a date kept as text for one, or a
    number other than zero makes [serialize] raise [AttributeError]: the
    value has no [strftime]. *)
Theorem serialize_of_another_order_date (self : instance) :
  (forall s : string,
     Order.serialize (<["order_date" := VStr s]> self)
     = if bool_decide (s = "") then Order.serialize (<["order_date" := VNone]> self)
       else Raise AttributeError)
  /\ (forall n : Z,
        Order.serialize (<["order_date" := VInt n]> self)
        = if bool_decide (n = 0) then Order.serialize (<["order_date" := VNone]> self)
          else Raise AttributeError)
  /\ exists m : dict,
       Order.serialize (<["order_date" := VNone]> self) = Ok m
       /\ m !! "order_date" = Some VNone.
Proof.
  assert (Hother : forall (v : value) (key : string),
            key <> "order_date" ->
            Orm.getattr (<["order_date" := v]> self) key = Orm.getattr self key).
  { intros v key Hne. by apply getattr_insert_ne. }
  split; [| split].
  - intros s. unfold Order.serialize.
    rewrite !getattr_insert_eq, !Hother by done. cbn.
    destruct (String.eqb_spec s "") as [-> | Hs]; case_bool_decide; done.
  - intros n. unfold Order.serialize.
    rewrite !getattr_insert_eq, !Hother by done. cbn.
    destruct (Z.eqb_spec n 0) as [-> | Hn]; case_bool_decide; try lia; done.
  - unfold Order.serialize. rewrite getattr_insert_eq. cbn.
    eexists. split; [reflexivity |].
    unfold PyDict.display. cbn [foldl fst snd]. by simplify_map_eq.
Qed.

(** X10: a quantity that went through the assignment shows up in the
    serialized order as it was given, and it is positive: [serialize] never
    shows a quantity that the validator would have refused, as long as the
    quantity was assigned. *)
Theorem serialized_quantity_is_positive (self self' : instance) (q : Z) (m : dict) :
  Orm.setattr Order.cls self "quantity_ordered" (VInt q) = Ok self' ->
  Order.serialize self' = Ok m ->
  m !! "quantity_ordered" = Some (VInt q) /\ 0 < q.
Proof.
  rewrite quantity_ordered_assignment. case_bool_decide as Hq; [| discriminate].
  intros [= <-]. unfold Order.serialize.
  destruct (if Py.truthy _ then _ else _) as [date |]; cbn; [| discriminate].
  intros [= <-]. split; [| exact Hq].
  rewrite getattr_insert_eq.
  unfold PyDict.display. cbn [foldl fst snd]. by simplify_map_eq.
Qed.

Lemma serialized_quantity_is_positive_witness :
  exists m : dict,
    Order.serialize (<["quantity_ordered" := VInt 4]> sample_order) = Ok m
    /\ m !! "quantity_ordered" = Some (VInt 4) /\ 0 < 4.
Proof.
  eexists. split; [reflexivity |].
  apply (serialized_quantity_is_positive sample_order
           (<["quantity_ordered" := VInt 4]> sample_order) 4); reflexivity.
Defined.

(** ** The password property, further *)

(** After a successful write the stored hash answers for the password
    written, for a hashing utility that meets its contract. *)
Lemma authenticate_after_setter (bcrypt : Bcrypt) (s : salt bcrypt)
    (self self' : instance) (p q : string) :
  bcrypt_contract bcrypt ->
  User.password_hash_setter bcrypt s self (VStr p) = Ok self' ->
  User.authenticate bcrypt self' (VStr q) = Ok (bool_decide (q = p)).
Proof.
  intros Hcontract Hset.
  apply password_hash_setter_inv in Hset as (plain & h & [= <-] & Hgen & _ & ->).
  unfold User.authenticate. rewrite getattr_insert_eq. cbn.
  rewrite (Hcontract _ _ _ Hgen).
  f_equal. apply bool_decide_ext. split; [apply encode_inj | by intros ->].
Qed.

(** X11: a second write replaces the first.  After the password has been
    written with [p1] and then with [p2], [authenticate] accepts [p2] and
    refuses [p1] (unless they are the same), for a hashing utility that meets
    its contract. *)
Theorem password_rewrite_replaces (bcrypt : Bcrypt) (s1 s2 : salt bcrypt)
    (self self1 self2 : instance) (p1 p2 : string) :
  bcrypt_contract bcrypt ->
  User.password_hash_setter bcrypt s1 self (VStr p1) = Ok self1 ->
  User.password_hash_setter bcrypt s2 self1 (VStr p2) = Ok self2 ->
  User.authenticate bcrypt self2 (VStr p2) = Ok true
  /\ User.authenticate bcrypt self2 (VStr p1) = Ok (bool_decide (p1 = p2))
  /\ forall key : string, key <> "_password_hash" -> self2 !! key = self !! key.
Proof.
  intros Hcontract Hfirst Hsecond.
  split; [| split].
  - rewrite (authenticate_after_setter bcrypt s2 self1 self2 p2 p2) by done.
    by rewrite bool_decide_eq_true_2.
  - by rewrite (authenticate_after_setter bcrypt s2 self1 self2 p2 p1).
  - intros key Hne.
    apply password_hash_setter_inv in Hfirst as (? & ? & _ & _ & _ & ->).
    apply password_hash_setter_inv in Hsecond as (? & ? & _ & _ & _ & ->).
    by rewrite !lookup_insert_ne.
Qed.

Lemma password_rewrite_replaces_witness :
  User.authenticate plain_bcrypt
    (<["_password_hash" := VStr "8newer"]> (<["_password_hash" := VStr "7s3cret"]> ∅))
    (VStr "newer") = Ok true
  /\ User.authenticate plain_bcrypt
       (<["_password_hash" := VStr "8newer"]> (<["_password_hash" := VStr "7s3cret"]> ∅))
       (VStr "s3cret") = Ok false.
Proof.
  destruct (password_rewrite_replaces plain_bcrypt "7"%byte "8"%byte ∅
              (<["_password_hash" := VStr "7s3cret"]> ∅)
              (<["_password_hash" := VStr "8newer"]> (<["_password_hash" := VStr "7s3cret"]> ∅))
              "s3cret" "newer") as (Hnew & Hold & _).
  - exact plain_bcrypt_contract.
  - reflexivity.
  - reflexivity.
  - split; [exact Hnew | exact Hold].
Defined.

(** X12: the password has to be a string on both paths.  Writing a value
    that is not a string, [None] for one, raises [AttributeError] before the
    hashing utility is reached, and so does [authenticate] with such a
    candidate, whatever the stored hash is. *)
Theorem password_needs_a_string (bcrypt : Bcrypt) (s : salt bcrypt)
    (self : instance) (v : value) :
  (forall p : string, v <> VStr p) ->
  User.password_hash_setter bcrypt s self v = Raise AttributeError
  /\ User.authenticate bcrypt self v = Raise AttributeError.
Proof.
  intros Hv. destruct v as [| n | p | d]; [| | by destruct (Hv p) |]; by split.
Qed.

Lemma password_needs_a_string_witness :
  User.password_hash_setter plain_bcrypt "7"%byte ∅ VNone = Raise AttributeError
  /\ User.authenticate plain_bcrypt ∅ VNone = Raise AttributeError.
Proof.
  apply (password_needs_a_string plain_bcrypt "7"%byte ∅ VNone). intros p. discriminate.
Defined.

(** X13: [authenticate] depends on the stored hash only.  A successful
    assignment to any other column of the user, the email or the role
    included, leaves the outcome of [authenticate] for every candidate as it
    was. *)
Theorem authenticate_reads_the_hash_only (bcrypt : Bcrypt)
    (self self' : instance) (key : string) (v candidate : value) :
  key ∈ col_name <$> columns User.cls ->
  key <> "_password_hash" ->
  Orm.setattr User.cls self key v = Ok self' ->
  User.authenticate bcrypt self' candidate = User.authenticate bcrypt self candidate.
Proof.
  intros _ Hne Hset. apply setattr_Ok_inv in Hset as ->; [| apply list_elem_of_here].
  unfold User.authenticate. by rewrite getattr_insert_ne.
Qed.

Lemma authenticate_reads_the_hash_only_witness :
  User.authenticate plain_bcrypt
    (<["email" := VStr "a@x.com"]> (<["_password_hash" := VStr "7s3cret"]> ∅)) (VStr "s3cret")
  = User.authenticate plain_bcrypt (<["_password_hash" := VStr "7s3cret"]> ∅) (VStr "s3cret").
Proof.
  apply (authenticate_reads_the_hash_only plain_bcrypt
           (<["_password_hash" := VStr "7s3cret"]> ∅) _ "email" (VStr "a@x.com")).
  - apply (bool_decide_unpack _). reflexivity.
  - discriminate.
  - reflexivity.
Defined.

(** ** Deleting, further *)

(** The tables after a user has been deleted. *)
Lemma delete_user_rows (fuel : nat) (uid : Z) (db : database) :
  NoDup ((fun m => Orm.getattr m "id") <$> Session.rows db "chat_message") ->
  exists db' : database,
    Session.delete (S (S fuel)) User.cls (VInt uid) db = Some db'
    /\ Session.rows db' "user"
       = List.filter (fun u => negb (Session.points_to "id" (VInt uid) u))
                     (Session.rows db "user")
    /\ Session.rows db' "chat_message"
       = List.filter (fun m => negb (Session.points_to "sender_id" (VInt uid) m)
                               && negb (Session.points_to "receiver_id" (VInt uid) m))
                     (Session.rows db "chat_message")
    /\ Session.rows db' "farmer"
       = Session.nullify "user_id" (VInt uid) <$> Session.rows db "farmer"
    /\ Session.rows db' "order"
       = Session.nullify "customer_id" (VInt uid) <$> Session.rows db "order"
    /\ Session.rows db' "reviews"
       = Session.nullify "customer_id" (VInt uid) <$> Session.rows db "reviews"
    /\ (forall table : string,
          table ∉ ["user"; "chat_message"; "farmer"; "order"; "reviews"] ->
          db' !! table = db !! table).
Proof.
  intros Hnodup. rewrite delete_unfold. cbn [relationships User.cls foldl].
  rewrite (on_parent_delete_nullify _ User.cls Farmer.cls _ _ _ "user_id") by reflexivity.
  rewrite (on_parent_delete_nullify _ User.cls Order.cls _ _ _ "customer_id") by reflexivity.
  rewrite (on_parent_delete_nullify _ User.cls Reviews.cls _ _ _ "customer_id") by reflexivity.
  cbn [tablename Farmer.cls Order.cls Reviews.cls].
  set (farmers := Session.nullify "user_id" (VInt uid) <$> Session.rows db "farmer").
  set (db1 := <["farmer" := farmers]> db).
  set (orders := Session.nullify "customer_id" (VInt uid) <$> Session.rows db1 "order").
  set (db2 := <["order" := orders]> db1).
  set (reviews := Session.nullify "customer_id" (VInt uid) <$> Session.rows db2 "reviews").
  set (db3 := <["reviews" := reviews]> db2).
  assert (Hrows3 : forall table : string,
            Session.rows db3 table
            = if decide (table = "reviews") then reviews
              else if decide (table = "order") then orders
              else if decide (table = "farmer") then farmers
              else Session.rows db table).
  { intros table. unfold db3, db2, db1.
    repeat case_decide; subst;
      rewrite ?rows_insert_eq, ?rows_insert_ne by done; try done.
    all: by rewrite ?rows_insert_eq, ?rows_insert_ne by done. }
  rewrite (on_parent_delete_cascade _ User.cls ChatMessage.cls _ _ _ "sender_id")
    by reflexivity.
  cbn [tablename ChatMessage.cls].
  destruct (delete_messages fuel
              (List.filter (Session.points_to "sender_id" (VInt uid))
                           (Session.rows db3 "chat_message")) db3)
    as (db4 & -> & Hrows4 & Hother4).
  rewrite (Hrows3 "chat_message") in Hrows4. cbn in Hrows4.
  rewrite (remove_keys_of_filter (fun m => Orm.getattr m "id")) in Hrows4 by done.
  rewrite (on_parent_delete_cascade _ User.cls ChatMessage.cls _ _ _ "receiver_id")
    by reflexivity.
  cbn [tablename ChatMessage.cls].
  destruct (delete_messages fuel
              (List.filter (Session.points_to "receiver_id" (VInt uid))
                           (Session.rows db4 "chat_message")) db4)
    as (db5 & -> & Hrows5 & Hother5).
  rewrite (remove_keys_of_filter (fun m => Orm.getattr m "id")) in Hrows5
    by (rewrite Hrows4; by apply NoDup_key_filter).
  rewrite Hrows4, filter_filter in Hrows5.
  assert (Hrows : forall table : string,
            table <> "chat_message" -> Session.rows db5 table = Session.rows db3 table).
  { intros table Hne. apply rows_ext. by rewrite Hother5, Hother4. }
  cbn [mbind option_bind tablename User.cls].
  eexists. split; [reflexivity |].
  split; [by rewrite rows_insert_eq, Hrows, Hrows3 |].
  split; [by rewrite rows_insert_ne, Hrows5 |].
  split; [by rewrite rows_insert_ne, Hrows, Hrows3 |].
  split.
  { rewrite rows_insert_ne, Hrows, Hrows3 by done. cbn. unfold orders, db1.
    by rewrite rows_insert_ne. }
  split.
  { rewrite rows_insert_ne, Hrows, Hrows3 by done. cbn. unfold reviews, db2, db1.
    by rewrite !rows_insert_ne. }
  intros table Htable. rewrite !not_elem_of_cons in Htable.
  destruct Htable as (? & ? & ? & ? & ? & _).
  rewrite lookup_insert_ne, Hother5, Hother4 by done.
  unfold db3, db2, db1. by rewrite !lookup_insert_ne.
Qed.

Lemma nullify_unreferenced (fk : string) (pk : Z) (row : instance) :
  Orm.getattr (Session.nullify fk (VInt pk) row) fk <> VInt pk.
Proof.
  unfold Session.nullify, Session.points_to, Py.eq.
  case_bool_decide as Hrow; [| done]. by rewrite getattr_insert_eq.
Qed.

Lemma nullify_idempotent (fk : string) (pk : Z) (row : instance) :
  Session.nullify fk (VInt pk) (Session.nullify fk (VInt pk) row)
  = Session.nullify fk (VInt pk) row.
Proof.
  unfold Session.nullify at 1. unfold Session.points_to, Py.eq.
  rewrite bool_decide_eq_false_2; [done |]. apply nullify_unreferenced.
Qed.

Lemma filter_idempotent {A} (f : A -> bool) (l : list A) :
  List.filter f (List.filter f l) = List.filter f l.
Proof.
  rewrite filter_filter. apply filter_ext. intros x. by destruct (f x).
Qed.

Lemma elem_of_filter_1 {A} (f : A -> bool) (l : list A) (x : A) :
  x ∈ List.filter f l -> f x = true.
Proof. by intros [_ ?]%list_elem_of_In%filter_In. Qed.

(** X14: after a user has been deleted nothing refers to it any longer: no
    chat message has it as sender or receiver, no farmer, order or review
    has it as owner, and no user row carries its key. *)
Theorem deleted_user_is_not_referenced (fuel : nat) (uid : Z) (db db' : database) :
  NoDup ((fun m => Orm.getattr m "id") <$> Session.rows db "chat_message") ->
  Session.delete (S (S fuel)) User.cls (VInt uid) db = Some db' ->
  (forall row, row ∈ Session.rows db' "user" -> Orm.getattr row "id" <> VInt uid)
  /\ (forall row, row ∈ Session.rows db' "chat_message" ->
        Orm.getattr row "sender_id" <> VInt uid
        /\ Orm.getattr row "receiver_id" <> VInt uid)
  /\ (forall row, row ∈ Session.rows db' "farmer" -> Orm.getattr row "user_id" <> VInt uid)
  /\ (forall row, row ∈ Session.rows db' "order" ->
        Orm.getattr row "customer_id" <> VInt uid)
  /\ (forall row, row ∈ Session.rows db' "reviews" ->
        Orm.getattr row "customer_id" <> VInt uid).
Proof.
  intros Hnodup Hdelete.
  destruct (delete_user_rows fuel uid db Hnodup)
    as (db'' & Hdelete' & Huser & Hmsgs & Hfarmer & Horder & Hreviews & _).
  rewrite Hdelete in Hdelete'. injection Hdelete' as <-.
  rewrite Huser, Hmsgs, Hfarmer, Horder, Hreviews.
  split; [| split; [| split; [| split]]].
  - intros row Hrow%elem_of_filter_1.
    apply negb_true_iff in Hrow. by apply bool_decide_eq_false_1 in Hrow.
  - intros row Hrow%elem_of_filter_1.
    apply andb_true_iff in Hrow as [Hs%negb_true_iff Hr%negb_true_iff].
    split; by apply (bool_decide_eq_false_1 _).
  - intros row (row' & -> & _)%list_elem_of_fmap. apply nullify_unreferenced.
  - intros row (row' & -> & _)%list_elem_of_fmap. apply nullify_unreferenced.
  - intros row (row' & -> & _)%list_elem_of_fmap. apply nullify_unreferenced.
Qed.

Lemma deleted_user_is_not_referenced_witness :
  exists db' : database,
    Session.delete 2 User.cls (VInt 1) sample_database = Some db'
    /\ forall row, row ∈ Session.rows db' "chat_message" ->
         Orm.getattr row "sender_id" <> VInt 1 /\ Orm.getattr row "receiver_id" <> VInt 1.
Proof.
  destruct (Session.delete 2 User.cls (VInt 1) sample_database) as [db' |] eqn:Hdelete;
    [| vm_compute in Hdelete; discriminate].
  exists db'. split; [reflexivity |].
  apply (deleted_user_is_not_referenced 0 1 sample_database db').
  - apply (bool_decide_unpack _). vm_compute. exact I.
  - exact Hdelete.
Defined.

(** X15: deleting the same user a second time changes no table: the first
    deletion has removed or released every row the second could touch. *)
Theorem delete_user_twice (fuel : nat) (uid : Z) (db db1 : database) :
  NoDup ((fun m => Orm.getattr m "id") <$> Session.rows db "chat_message") ->
  Session.delete (S (S fuel)) User.cls (VInt uid) db = Some db1 ->
  exists db2 : database,
    Session.delete (S (S fuel)) User.cls (VInt uid) db1 = Some db2
    /\ forall table : string, Session.rows db2 table = Session.rows db1 table.
Proof.
  intros Hnodup Hdelete.
  destruct (delete_user_rows fuel uid db Hnodup)
    as (db1' & Hdelete' & Huser & Hmsgs & Hfarmer & Horder & Hreviews & _).
  rewrite Hdelete in Hdelete'. injection Hdelete' as <-.
  destruct (delete_user_rows fuel uid db1)
    as (db2 & Hdelete2 & Huser2 & Hmsgs2 & Hfarmer2 & Horder2 & Hreviews2 & Hother2).
  { rewrite Hmsgs. by apply NoDup_key_filter. }
  exists db2. split; [exact Hdelete2 |]. intros table.
  destruct (decide (table ∈ ["user"; "chat_message"; "farmer"; "order"; "reviews"]))
    as [Hin | Hout]; [| by apply rows_ext, Hother2].
  rewrite !elem_of_cons in Hin.
  destruct Hin as [-> | [-> | [-> | [-> | [-> | Hnil]]]]];
    [| | | | | by apply elem_of_nil in Hnil].
  - by rewrite Huser2, Huser, filter_idempotent.
  - by rewrite Hmsgs2, Hmsgs, filter_idempotent.
  - rewrite Hfarmer2, Hfarmer, <- list_fmap_compose. apply list_fmap_ext.
    intros i row _. apply nullify_idempotent.
  - rewrite Horder2, Horder, <- list_fmap_compose. apply list_fmap_ext.
    intros i row _. apply nullify_idempotent.
  - rewrite Hreviews2, Hreviews, <- list_fmap_compose. apply list_fmap_ext.
    intros i row _. apply nullify_idempotent.
Qed.

Lemma delete_user_twice_witness :
  exists db1 db2 : database,
    Session.delete 2 User.cls (VInt 1) sample_database = Some db1
    /\ Session.delete 2 User.cls (VInt 1) db1 = Some db2
    /\ forall table : string, Session.rows db2 table = Session.rows db1 table.
Proof.
  destruct (Session.delete 2 User.cls (VInt 1) sample_database) as [db1 |] eqn:Hdelete;
    [| vm_compute in Hdelete; discriminate].
  destruct (delete_user_twice 0 1 sample_database db1) as (db2 & Hsecond & Hsame).
  - apply (bool_decide_unpack _). vm_compute. exact I.
  - exact Hdelete.
  - exists db1, db2. split; [reflexivity |]. split; [exact Hsecond | exact Hsame].
Defined.

(** X16: deleting a farmer deletes no product.  The relationship to the
    products has no delete cascade, so every product stays, with its
    farmer_id set to [None] where it pointed at the farmer; the farmer's row
    goes, and no other table changes, the user table included. *)
Theorem delete_farmer_keeps_products (fuel : nat) (fid : Z) (db : database) :
  exists db' : database,
    Session.delete (S fuel) Farmer.cls (VInt fid) db = Some db'
    /\ Session.rows db' "farmer"
       = List.filter (fun f => negb (Session.points_to "id" (VInt fid) f))
                     (Session.rows db "farmer")
    /\ Session.rows db' "product"
       = Session.nullify "farmer_id" (VInt fid) <$> Session.rows db "product"
    /\ (fun row => Orm.getattr row "id") <$> Session.rows db' "product"
       = (fun row => Orm.getattr row "id") <$> Session.rows db "product"
    /\ (forall row, row ∈ Session.rows db' "product" ->
          Orm.getattr row "farmer_id" <> VInt fid)
    /\ (forall table : string, table ∉ ["farmer"; "product"] -> db' !! table = db !! table).
Proof.
  rewrite delete_unfold. cbn [relationships Farmer.cls foldl].
  rewrite (on_parent_delete_nullify _ Farmer.cls Product.cls _ _ _ "farmer_id")
    by reflexivity.
  cbn [mbind option_bind tablename Farmer.cls Product.cls].
  eexists. split; [reflexivity |].
  split; [by rewrite rows_insert_eq, rows_insert_ne |].
  assert (Hproducts :
    Session.rows
      (<["farmer" := List.filter (fun row => negb (Session.points_to "id" (VInt fid) row))
                       (Session.rows
                          (<["product" := Session.nullify "farmer_id" (VInt fid)
                                            <$> Session.rows db "product"]> db) "farmer")]>
         (<["product" := Session.nullify "farmer_id" (VInt fid)
                           <$> Session.rows db "product"]> db)) "product"
    = Session.nullify "farmer_id" (VInt fid) <$> Session.rows db "product").
  { by rewrite rows_insert_ne, rows_insert_eq. }
  split; [exact Hproducts |]. rewrite Hproducts.
  split; [| split].
  - rewrite <- list_fmap_compose. apply list_fmap_ext.
    intros i row _. cbn. by apply getattr_nullify.
  - intros row (row' & -> & _)%list_elem_of_fmap. apply nullify_unreferenced.
  - intros table Htable. rewrite !not_elem_of_cons in Htable.
    destruct Htable as (? & ? & _). by rewrite !lookup_insert_ne.
Qed.

(** The same on the sample store: the user who owned the farmer is still
    there. *)
Example delete_farmer_sample :
  (fun db' => (Session.rows db' "farmer", Session.rows db' "user"))
    <$> Session.delete 1 Farmer.cls (VInt 1) sample_database
  = Some ([], [ {[ "id" := VInt 1 ]}; {[ "id" := VInt 2 ]} ]).
Proof. vm_compute. reflexivity. Qed.

(** ** The migration, further *)

Local Open Scope list_scope.

(** Proves that one declared table is among the created ones and agrees
    with it. *)
Ltac table_agrees :=
  eexists; split;
  [ cbn; repeat first [apply list_elem_of_here | apply list_elem_of_further]
  | repeat split; first [reflexivity | by apply (bool_decide_unpack _)] ].

(** X17: the revision creates the schema that [models.py] declares.  Every
    mapped class and both association tables have a created table of their
    name with the same columns in the same order, of the same types and
    nullability, the same primary key, the same unique columns and the same
    foreign keys with the same constraint names; and the revision creates no
    table beyond these nine. *)
Theorem migration_creates_the_declared_schema :
  Forall (fun d : string * list column =>
            exists items,
              (d.1, items) ∈ Schema.tables Migration.upgrade /\ Schema.agree d.2 items)
         Schema.declared
  /\ (Schema.tables Migration.upgrade).*1 ≡ₚ Schema.declared.*1.
Proof.
  split; [| by apply (bool_decide_unpack _)].
  unfold Schema.declared, registry. cbn [fmap list_fmap app].
  repeat (apply List.Forall_cons; [table_agrees |]).
  apply List.Forall_nil.
Qed.

Lemma run_cons (op : Migration.operation) (ops : list Migration.operation)
    (s : list (string * list Migration.schema_item)) :
  Migration.run (op :: ops) s = (s' ← Migration.run_operation op s; Migration.run ops s').
Proof.
  unfold Migration.run. cbn [foldl]. cbn [mbind result_bind].
  destruct (Migration.run_operation op s) as [s' | e]; [done |].
  cbn. induction ops as [| op' ops IH]; [done | apply IH].
Qed.

Lemma has_table_elem (name : string) (s : list (string * list Migration.schema_item)) :
  Migration.has_table name s = bool_decide (name ∈ s.*1).
Proof.
  unfold Migration.has_table. induction s as [| t s IH]; [done |]. cbn.
  rewrite IH. destruct (String.eqb_spec t.1 name) as [Heq | Hne]; cbn.
  - symmetry. apply bool_decide_eq_true_2. rewrite Heq. apply list_elem_of_here.
  - apply bool_decide_ext. rewrite elem_of_cons. naive_solver.
Qed.

Lemma has_table_app (name : string) (s1 s2 : list (string * list Migration.schema_item)) :
  Migration.has_table name (s1 ++ s2)
  = Migration.has_table name s1 || Migration.has_table name s2.
Proof. unfold Migration.has_table. apply existsb_app. Qed.

(** Removing a table that is not there removes nothing. *)
Lemma filter_absent (name : string) (s : list (string * list Migration.schema_item)) :
  Migration.has_table name s = false ->
  List.filter (fun t => negb (String.eqb t.1 name)) s = s.
Proof.
  unfold Migration.has_table. induction s as [| t s IH]; [done |]. cbn.
  intros [Ht Hs]%orb_false_iff. rewrite Ht. cbn. by rewrite IH.
Qed.

(** A run of [create_table]s that succeeds has appended its tables, and none
    of their names was there before. *)
Lemma run_creates_inv (ts s s' : list (string * list Migration.schema_item)) :
  Migration.run ((fun t => Migration.create_table t.1 t.2) <$> ts) s = Ok s' ->
  s' = s ++ ts /\ forall name, name ∈ ts.*1 -> Migration.has_table name s = false.
Proof.
  revert s. induction ts as [| t ts IH]; intros s.
  - intros [= <-]. split; [by rewrite app_nil_r | by intros name ?%elem_of_nil].
  - destruct t as [n items].
    rewrite fmap_cons, run_cons. cbn [Migration.run_operation fst snd].
    destruct (Migration.has_table n s) eqn:Hfresh; [discriminate |].
    destruct (forallb _ _); [| discriminate]. cbn [mbind result_bind].
    intros [-> Hrest]%IH. split; [symmetry; apply (List.app_assoc s [(n, items)] ts) |].
    intros name. rewrite fmap_cons, elem_of_cons. intros [-> | Hname]; [done |].
    specialize (Hrest name Hname). rewrite has_table_app in Hrest.
    by apply orb_false_iff in Hrest as [? _].
Qed.

(** Tables in dependency order can be created on top of any schema that has
    none of their names. *)
Lemma run_creates (ts pre s : list (string * list Migration.schema_item)) :
  Schema.creatable pre.*1 ts = true ->
  (forall name, name ∈ ts.*1 -> Migration.has_table name s = false) ->
  Migration.run ((fun t => Migration.create_table t.1 t.2) <$> ts) (s ++ pre)
  = Ok (s ++ pre ++ ts).
Proof.
  revert pre. induction ts as [| t ts IH]; intros pre Hok Hfresh.
  - by rewrite app_nil_r.
  - destruct t as [n items]. cbn [Schema.creatable fst snd] in Hok.
    apply andb_true_iff in Hok as [[Hnew%negb_true_iff Hrefs]%andb_true_iff Hrest].
    rewrite fmap_cons, run_cons. cbn [Migration.run_operation fst snd].
    rewrite has_table_app, (Hfresh n) by apply list_elem_of_here.
    rewrite has_table_elem, Hnew. cbn [orb].
    assert (Hthere :
      forallb (fun r => Migration.has_table r (s ++ pre)) (Migration.referenced items) = true).
    { apply forallb_forall. intros r Hr.
      rewrite forallb_forall in Hrefs. specialize (Hrefs r Hr).
      rewrite has_table_app, (has_table_elem r pre), Hrefs. apply orb_true_r. }
    rewrite Hthere. cbn [mbind result_bind].
    rewrite <- List.app_assoc. rewrite (IH (pre ++ [(n, items)])).
    + by rewrite <- List.app_assoc.
    + by rewrite fmap_app.
    + intros name Hname. apply Hfresh. by apply list_elem_of_further.
Qed.

(** A run of [drop_table]s that succeeds has removed the tables of these
    names and nothing else, and each of them was there. *)
Lemma run_drops_inv (names : list string) (s s' : list (string * list Migration.schema_item)) :
  Migration.run (Migration.drop_table <$> names) s = Ok s' ->
  s' = List.filter (fun t => negb (bool_decide (t.1 ∈ names))) s
  /\ forall name, name ∈ names -> Migration.has_table name s = true.
Proof.
  revert s. induction names as [| n names IH]; intros s.
  - intros [= <-]. split; [| by intros name ?%elem_of_nil].
    symmetry. apply forallb_filter_id, forallb_forall. intros t _.
    apply negb_true_iff, bool_decide_eq_false_2, not_elem_of_nil.
  - rewrite fmap_cons, run_cons. cbn [Migration.run_operation].
    destruct (Migration.has_table n s) eqn:Hthere; [| discriminate]. cbn [negb].
    destruct (existsb _ s); [discriminate |]. cbn [mbind result_bind].
    intros [-> Hrest]%IH. split.
    + rewrite filter_filter. apply filter_ext. intros t.
      destruct (String.eqb_spec t.1 n) as [Heq | Hne]; cbn.
      * symmetry. apply negb_false_iff, bool_decide_eq_true_2.
        rewrite Heq. apply list_elem_of_here.
      * f_equal. apply bool_decide_ext. rewrite elem_of_cons. naive_solver.
    + intros name [-> | Hname]%elem_of_cons; [done |].
      specialize (Hrest name Hname). rewrite has_table_elem in Hrest |- *.
      apply bool_decide_eq_true_1 in Hrest. apply bool_decide_eq_true_2.
      apply list_elem_of_fmap in Hrest as (t & -> & Ht).
      apply list_elem_of_In, filter_In in Ht as [Ht%list_elem_of_In _].
      by apply list_elem_of_fmap_2.
Qed.

Lemma elem_of_rev_names (name : string) (l : list (string * list Migration.schema_item)) :
  name ∈ (rev l).*1 <-> name ∈ l.*1.
Proof.
  rewrite !list_elem_of_fmap. split; intros (u & -> & Hu); exists u; split; try done.
  - by apply list_elem_of_In, in_rev, list_elem_of_In.
  - by apply list_elem_of_In, in_rev, list_elem_of_In in Hu.
Qed.

(** Tables can be dropped latest first from any schema that neither has
    their names elsewhere nor refers to them. *)
Lemma run_drops (rts s : list (string * list Migration.schema_item)) :
  NoDup rts.*1 ->
  (forall name, name ∈ rts.*1 -> Migration.has_table name s = false) ->
  (forall u name, u ∈ s -> name ∈ rts.*1 -> name ∉ Migration.referenced u.2) ->
  Schema.droppable rts = true ->
  Migration.run (Migration.drop_table <$> rts.*1) (s ++ rev rts) = Ok s.
Proof.
  induction rts as [| t rest IH]; intros Hnodup Hfresh Hunref Hok.
  - cbn. by rewrite app_nil_r.
  - cbn [Schema.droppable] in Hok.
    apply andb_true_iff in Hok as [Hlast%negb_true_iff Hrest].
    rewrite fmap_cons in Hnodup. apply NoDup_cons in Hnodup as [Hnew Hnodup].
    rewrite !fmap_cons, run_cons. cbn [Migration.run_operation rev].
    assert (Hthere : Migration.has_table t.1 (s ++ rev rest ++ [t]) = true).
    { rewrite !has_table_app. cbn. rewrite String.eqb_refl. cbn.
      by rewrite !orb_true_r. }
    rewrite Hthere. cbn [negb].
    assert (Hfree :
      existsb (fun u => bool_decide (t.1 ∈ Migration.referenced u.2))
              (s ++ rev rest ++ [t]) = false).
    { apply not_true_is_false. intros (u & Hu & Href)%existsb_exists.
      apply bool_decide_eq_true_1 in Href.
      apply in_app_or in Hu as [Hu | Hu].
      - apply (Hunref u t.1); [by apply list_elem_of_In | apply list_elem_of_here | done].
      - assert (Hu' : In u (t :: rest)).
        { apply in_app_or in Hu as [Hu | [<- | []]]; [right | by left].
          by apply in_rev. }
        assert (existsb (fun u => bool_decide (t.1 ∈ Migration.referenced u.2)) (t :: rest)
                = true); [| congruence].
        apply existsb_exists. exists u. split; [done | by apply bool_decide_eq_true_2]. }
    rewrite Hfree. cbn [mbind result_bind].
    rewrite !List.filter_app, filter_absent by (apply Hfresh, list_elem_of_here).
    rewrite filter_absent.
    2:{ rewrite has_table_elem. apply bool_decide_eq_false_2.
        by rewrite elem_of_rev_names. }
    cbn. rewrite String.eqb_refl. cbn. rewrite app_nil_r.
    apply IH; [done | | | done].
    + intros name Hname. apply Hfresh. by apply list_elem_of_further.
    + intros u name Hu Hname. apply Hunref; [done | by apply list_elem_of_further].
Qed.

Lemma upgrade_creates :
  Migration.upgrade
  = (fun t => Migration.create_table t.1 t.2) <$> Schema.tables Migration.upgrade.
Proof. reflexivity. Qed.

Lemma downgrade_drops :
  Migration.downgrade
  = Migration.drop_table <$> (rev (Schema.tables Migration.upgrade)).*1.
Proof. reflexivity. Qed.

Lemma tables_names :
  (Schema.tables Migration.upgrade).*1 = Migration.created Migration.upgrade.
Proof. reflexivity. Qed.

(** X18: downgrade undoes upgrade.  On every schema that has none of the
    nine table names and no foreign key to them, upgrade succeeds and adds
    the nine tables after the existing ones, each of its foreign keys
    finding its table; downgrade then succeeds as well and gives the schema
    back as it was. *)
Theorem downgrade_undoes_upgrade (s : list (string * list Migration.schema_item)) :
  (forall name, name ∈ Migration.created Migration.upgrade ->
                Migration.has_table name s = false) ->
  (forall u name, u ∈ s -> name ∈ Migration.created Migration.upgrade ->
                  name ∉ Migration.referenced u.2) ->
  Migration.run Migration.upgrade s = Ok (s ++ Schema.tables Migration.upgrade)
  /\ Migration.run Migration.downgrade (s ++ Schema.tables Migration.upgrade) = Ok s.
Proof.
  intros Hfresh Hunref. split.
  - rewrite upgrade_creates.
    rewrite <- (app_nil_r s) at 1. rewrite (run_creates _ [] s).
    + reflexivity.
    + vm_compute. reflexivity.
    + intros name Hname. apply Hfresh. by rewrite <- tables_names.
  - rewrite downgrade_drops.
    rewrite <- (rev_involutive (Schema.tables Migration.upgrade)) at 2.
    apply run_drops.
    + apply (bool_decide_unpack _). vm_compute. exact I.
    + intros name Hname. apply Hfresh.
      rewrite <- tables_names. by apply elem_of_rev_names.
    + intros u name Hu Hname. apply Hunref; [done |].
      rewrite <- tables_names. by apply elem_of_rev_names.
    + vm_compute. reflexivity.
Qed.

Lemma downgrade_undoes_upgrade_witness :
  Migration.run Migration.upgrade sample_schema
  = Ok (sample_schema ++ Schema.tables Migration.upgrade)
  /\ Migration.run Migration.downgrade (sample_schema ++ Schema.tables Migration.upgrade)
     = Ok sample_schema.
Proof.
  apply (downgrade_undoes_upgrade sample_schema).
  - intros name Hname. rewrite has_table_elem. apply bool_decide_eq_false_2.
    intros Hin. revert Hname. apply (bool_decide_unpack _).
    cbn in Hin. apply list_elem_of_singleton in Hin as ->. vm_compute. exact I.
  - intros u name Hu. apply list_elem_of_singleton in Hu as ->.
    intros _. cbn. apply not_elem_of_nil.
Defined.

Lemma run_create_existing (name : string) (items : list Migration.schema_item)
    (ops : list Migration.operation) (s : list (string * list Migration.schema_item)) :
  Migration.has_table name s = true ->
  raises (Migration.run (Migration.create_table name items :: ops) s).
Proof.
  intros Hthere. rewrite run_cons. cbn [Migration.run_operation]. rewrite Hthere.
  apply raises_Raise.
Qed.

Lemma run_drop_missing (name : string) (ops : list Migration.operation)
    (s : list (string * list Migration.schema_item)) :
  Migration.has_table name s = false ->
  raises (Migration.run (Migration.drop_table name :: ops) s).
Proof.
  intros Hgone. rewrite run_cons. cbn [Migration.run_operation]. rewrite Hgone.
  apply raises_Raise.
Qed.

(** X19: whenever upgrade succeeds, none of its nine tables existed before,
    the tables that did exist are untouched, and the nine new ones come
    after them; applied once more to the result, upgrade raises, its first
    table being there already. *)
Theorem upgrade_only_appends (s s' : list (string * list Migration.schema_item)) :
  Migration.run Migration.upgrade s = Ok s' ->
  s' = s ++ Schema.tables Migration.upgrade
  /\ (forall name, name ∈ Migration.created Migration.upgrade ->
                   Migration.has_table name s = false)
  /\ raises (Migration.run Migration.upgrade s').
Proof.
  rewrite upgrade_creates at 1. intros [-> Hfresh]%run_creates_inv.
  split; [done |]. split; [exact Hfresh |].
  apply run_create_existing. rewrite has_table_app. apply orb_true_iff. by right.
Qed.

Lemma upgrade_only_appends_witness :
  sample_schema ++ Schema.tables Migration.upgrade
  = sample_schema ++ Schema.tables Migration.upgrade
  /\ (forall name, name ∈ Migration.created Migration.upgrade ->
                   Migration.has_table name sample_schema = false)
  /\ raises (Migration.run Migration.upgrade
               (sample_schema ++ Schema.tables Migration.upgrade)).
Proof.
  apply (upgrade_only_appends sample_schema
           (sample_schema ++ Schema.tables Migration.upgrade)).
  vm_compute. reflexivity.
Defined.

(** X20: whenever downgrade succeeds, all of its nine tables existed, they
    are gone afterwards and every other table is kept, in its place; applied
    once more to the result, downgrade raises, its first table being gone. *)
Theorem downgrade_only_drops_its_tables (s s' : list (string * list Migration.schema_item)) :
  Migration.run Migration.downgrade s = Ok s' ->
  s' = List.filter
         (fun t => negb (bool_decide (t.1 ∈ Migration.dropped Migration.downgrade))) s
  /\ (forall name, name ∈ Migration.dropped Migration.downgrade ->
                   Migration.has_table name s = true)
  /\ raises (Migration.run Migration.downgrade s').
Proof.
  intros Hrun.
  assert (Hdrops : Migration.downgrade
                   = Migration.drop_table <$> Migration.dropped Migration.downgrade)
    by reflexivity.
  rewrite Hdrops in Hrun at 1. apply run_drops_inv in Hrun as [-> Hthere].
  split; [done |]. split; [exact Hthere |].
  apply run_drop_missing. rewrite has_table_elem. apply bool_decide_eq_false_2.
  intros (t & Hname & Ht)%list_elem_of_fmap.
  apply list_elem_of_In, filter_In in Ht as [_ Hkept].
  apply negb_true_iff, bool_decide_eq_false_1 in Hkept. apply Hkept.
  rewrite <- Hname. apply list_elem_of_here.
Qed.

Lemma downgrade_only_drops_its_tables_witness :
  sample_schema
  = List.filter
      (fun t => negb (bool_decide (t.1 ∈ Migration.dropped Migration.downgrade)))
      (sample_schema ++ Schema.tables Migration.upgrade)
  /\ (forall name, name ∈ Migration.dropped Migration.downgrade ->
                   Migration.has_table name (sample_schema ++ Schema.tables Migration.upgrade)
                   = true)
  /\ raises (Migration.run Migration.downgrade sample_schema).
Proof.
  apply (downgrade_only_drops_its_tables
           (sample_schema ++ Schema.tables Migration.upgrade) sample_schema).
  vm_compute. reflexivity.
Defined.

(** The messages on a second run, on the sample schema. *)
Example second_run_sample :
  Migration.run Migration.upgrade (sample_schema ++ Schema.tables Migration.upgrade)
  = Raise (OperationalError "table user already exists")
  /\ Migration.run Migration.downgrade sample_schema
     = Raise (OperationalError "no such table: payment").
Proof. split; vm_compute; reflexivity. Qed.
